(** * libdns-cpanel: a verified model of [provider.go]

    The provider talks to the cPanel UAPI [DNS] module through two remote
    functions, [parse_zone] and [mass_edit_zone].  This development embeds
    [provider.go] together with the parts of the Go standard library it
    relies on ([strings], [strconv], [encoding/base64]) and states the
    behaviour of the four exported operations. *)

From Stdlib Require Import ZArith NArith List Ascii String DecimalString Lia Bool.
From Stdlib Require DecimalPos DecimalZ.
From stdpp Require Import base option list strings gmap.

Set Warnings "-register-all".
Local Open Scope string_scope.
Local Open Scope list_scope.

(** Go strings are byte sequences; [string] is a list of 8-bit [ascii]. *)
Abbreviation bytesOf := list_ascii_of_string.
Abbreviation ofBytes := string_of_list_ascii.

(* ===================================================================== *)
(** ** Package [strings] *)
(* ===================================================================== *)

Module GoStrings.

(** [s[lo:]] and [s[:hi]] on strings. *)
Definition sliceFrom (s : string) (lo : nat) : string :=
  ofBytes (drop lo (bytesOf s)).
Definition sliceTo (s : string) (hi : nat) : string :=
  ofBytes (take hi (bytesOf s)).

(** [HasSuffix]: [len(s) >= len(suffix) && s[len(s)-len(suffix):] == suffix]. *)
Definition HasSuffix (s suffix : string) : bool :=
  (String.length suffix <=? String.length s)%nat
  && String.eqb (sliceFrom s (String.length s - String.length suffix)) suffix.

(** [TrimSuffix]: the suffix is removed once, when present. *)
Definition TrimSuffix (s suffix : string) : string :=
  if HasSuffix s suffix
  then sliceTo s (String.length s - String.length suffix)
  else s.

(** [Join]: [elems[0]], then separator and element for each further one. *)
Definition Join (elems : list string) (sep : string) : string :=
  match elems with
  | [] => ""
  | e :: rest => fold_left (fun b s => b +:+ sep +:+ s) rest e
  end.

(** [TrimRight(s, cutset)] for a one-byte cutset. *)
Fixpoint trimRightBytes (c : ascii) (l : list ascii) : list ascii :=
  match l with
  | [] => []
  | x :: t =>
      match trimRightBytes c t with
      | [] => if Ascii.eqb x c then [] else [x]
      | t' => x :: t'
      end
  end.
Definition TrimRight (s : string) (c : ascii) : string :=
  ofBytes (trimRightBytes c (bytesOf s)).

(** White space as [unicode.IsSpace] sees it, read off the UTF-8 bytes.
    The result is the width in bytes of the white-space rune that starts
    the input, or [0] when none does.  The runes are U+0009..U+000D,
    U+0020, U+0085, U+00A0, U+1680, U+2000..U+200A, U+2028, U+2029,
    U+202F, U+205F and U+3000.  Every multi-byte encoding among them
    starts with a UTF-8 lead byte, which is never consumed as a
    continuation byte by the decoder, so testing at each byte offset sees
    the same separators as decoding rune by rune. *)
Definition spaceWidth (s : list ascii) : nat :=
  match s with
  | [] => 0
  | c0 :: t0 =>
      let b0 := N_of_ascii c0 in
      if ((9 <=? b0) && (b0 <=? 13) || (b0 =? 32))%N then 1
      else
        match t0 with
        | [] => 0
        | c1 :: t1 =>
            let b1 := N_of_ascii c1 in
            if ((b0 =? 0xC2) && ((b1 =? 0x85) || (b1 =? 0xA0)))%N then 2
            else
              match t1 with
              | [] => 0
              | c2 :: _ =>
                  let b2 := N_of_ascii c2 in
                  if ((b0 =? 0xE1) && (b1 =? 0x9A) && (b2 =? 0x80))%N then 3
                  else if ((b0 =? 0xE2) && (b1 =? 0x80)
                           && ((0x80 <=? b2) && (b2 <=? 0x8A)
                               || (b2 =? 0xA8) || (b2 =? 0xA9) || (b2 =? 0xAF)))%N
                  then 3
                  else if ((b0 =? 0xE2) && (b1 =? 0x81) && (b2 =? 0x9F))%N then 3
                  else if ((b0 =? 0xE3) && (b1 =? 0x80) && (b2 =? 0x80))%N then 3
                  else 0
              end
        end
  end.

Definition flush (cur : list ascii) : list string :=
  match cur with [] => [] | _ => [ofBytes cur] end.

(** The scan of [Fields]: [skip] counts the remaining bytes of a
    multi-byte separator, [cur] is the field being collected. *)
Fixpoint fieldsFrom (s : list ascii) (skip : nat) (cur : list ascii)
  : list string :=
  match s with
  | [] => flush cur
  | c :: t =>
      match skip with
      | S k => fieldsFrom t k cur
      | O =>
          match spaceWidth s with
          | O => fieldsFrom t 0 (cur ++ [c])
          | S k => flush cur ++ fieldsFrom t k []
          end
      end
  end.

(** [Fields]: the maximal runs of non-space bytes, in order. *)
Definition Fields (s : string) : list string := fieldsFrom (bytesOf s) 0 [].

(** The elements with exactly one separator between neighbours. *)
Fixpoint separated (sep : string) (elems : list string) : string :=
  match elems with
  | [] => ""
  | [e] => e
  | e :: rest => e +:+ sep +:+ separated sep rest
  end.

End GoStrings.

(* ===================================================================== *)
(** ** Package [strconv] *)
(* ===================================================================== *)

Module Strconv.
(** [Itoa]: decimal digits, a leading [-] for negative numbers. *)
Definition Itoa (i : Z) : string := NilZero.string_of_int (Z.to_int i).
End Strconv.

(* ===================================================================== *)
(** ** Package [encoding/base64], [StdEncoding] *)
(* ===================================================================== *)

Module Base64.

Definition encodeStd : string :=
  "ABCDEFGHIJKLMNOPQRSTUVWXYZabcdefghijklmnopqrstuvwxyz0123456789+/".

Definition padChar : ascii := "="%char.

(** [enc.encode[i]] *)
Definition encodeChar (i : N) : ascii :=
  nth (N.to_nat i) (bytesOf encodeStd) "A"%char.

Fixpoint indexOf (c : ascii) (l : list ascii) (i : N) : N :=
  match l with
  | [] => 0xff
  | x :: t => if Ascii.eqb x c then i else indexOf c t (N.succ i)
  end.

(** [enc.decodeMap[c]]: the position of [c] in the alphabet, [0xff] for
    a byte outside it. *)
Definition decodeMap (c : ascii) : N := indexOf c (bytesOf encodeStd) 0.

(** [byte(v)]: conversion to a byte keeps the low 8 bits. *)
Definition byte (v : N) : ascii := ascii_of_N (N.land v 0xff).

(** *** Encoding *)

Definition val3 (b0 b1 b2 : ascii) : N :=
  N.lor (N.shiftl (N_of_ascii b0) 16)
        (N.lor (N.shiftl (N_of_ascii b1) 8) (N_of_ascii b2)).

Definition sextet (val : N) (sh : N) : N := N.land (N.shiftr val sh) 0x3f.

Fixpoint encodeBytes (src : list ascii) : list ascii :=
  match src with
  | [] => []
  | [b0] =>
      let val := N.shiftl (N_of_ascii b0) 16 in
      [encodeChar (sextet val 18); encodeChar (sextet val 12);
       padChar; padChar]
  | [b0; b1] =>
      let val := N.lor (N.shiftl (N_of_ascii b0) 16)
                       (N.shiftl (N_of_ascii b1) 8) in
      [encodeChar (sextet val 18); encodeChar (sextet val 12);
       encodeChar (sextet val 6); padChar]
  | b0 :: b1 :: b2 :: rest =>
      let val := val3 b0 b1 b2 in
      encodeChar (sextet val 18) :: encodeChar (sextet val 12)
        :: encodeChar (sextet val 6) :: encodeChar (sextet val 0)
        :: encodeBytes rest
  end.

Definition EncodeToString (src : string) : string :=
  ofBytes (encodeBytes (bytesOf src)).

(** *** Decoding *)

Definition isNewline (c : ascii) : bool :=
  Ascii.eqb c "010"%char || Ascii.eqb c "013"%char.

Fixpoint skipNewlines (src : list ascii) : list ascii :=
  match src with
  | [] => []
  | c :: t => if isNewline c then skipNewlines t else src
  end.

(** The end of [decodeQuantum]: [dlen] six-bit values give [dlen - 1]
    bytes ([StdEncoding] is not strict, so left-over bits are dropped). *)
Definition quantumBytes (dbuf : list N) : list ascii :=
  let d i := nth i dbuf 0%N in
  let val := N.lor (N.shiftl (d 0%nat) 18)
               (N.lor (N.shiftl (d 1%nat) 12)
                  (N.lor (N.shiftl (d 2%nat) 6) (d 3%nat))) in
  take (length dbuf - 1)
       [byte (N.shiftr val 16); byte (N.shiftr val 8); byte val].

(** [Decode] as the repetition of [decodeQuantum]; [dbuf] holds the
    six-bit values of the quantum being read.  The result is the bytes
    written ([dbuf[:n]]) and whether the input was well formed; on
    corrupt input the bytes of the quanta completed before are kept.
    The 8- and 4-byte fast paths of [Decode] produce the same bytes and
    are not modelled apart. *)
Fixpoint decodeFrom (src : list ascii) (dbuf : list N) : list ascii * bool :=
  match src with
  | [] =>
      match dbuf with
      | [] => ([], true)
      | _ => ([], false)
      end
  | c :: rest =>
      let out := decodeMap c in
      if negb (out =? 0xff)%N then
        let dbuf' := dbuf ++ [out] in
        if (length dbuf' =? 4)%nat then
          let r := decodeFrom rest [] in
          (quantumBytes dbuf' ++ fst r, snd r)
        else decodeFrom rest dbuf'
      else if isNewline c then decodeFrom rest dbuf
      else if negb (Ascii.eqb c padChar) then ([], false)
      else
        match length dbuf with
        | 0%nat | 1%nat => ([], false)
        | 2%nat =>
            match skipNewlines rest with
            | [] => ([], false)
            | c2 :: rest2 =>
                if negb (Ascii.eqb c2 padChar) then ([], false)
                else
                  (quantumBytes dbuf,
                   match skipNewlines rest2 with [] => true | _ => false end)
            end
        | _ =>
            (quantumBytes dbuf,
             match skipNewlines rest with [] => true | _ => false end)
        end
  end.

(** [DecodeString]: the decoded bytes and [true] when [err == nil]. *)
Definition DecodeString (s : string) : string * bool :=
  let r := decodeFrom (bytesOf s) [] in (ofBytes (fst r), snd r).

End Base64.

(* ===================================================================== *)
(** ** Package [unicode/utf8], as [encoding/json] uses it *)
(* ===================================================================== *)

Module UTF8.

(** The first byte of an encoding: what [utf8.first] says of it, with the
    range accepted for the second byte. *)
Inductive lead : Type :=
| single                    (* 00..7F *)
| invalid                   (* 80..C1, F5..FF *)
| two                       (* C2..DF *)
| three (lo hi : N)         (* E0..EF *)
| four (lo hi : N).         (* F0..F4 *)

Definition leadOf (c : ascii) : lead :=
  let b := N_of_ascii c in
  if (b <? 0x80)%N then single
  else if (b <? 0xC2)%N then invalid
  else if (b <? 0xE0)%N then two
  else if (b =? 0xE0)%N then three 0xA0 0xBF
  else if (b =? 0xED)%N then three 0x80 0x9F
  else if (b <? 0xF0)%N then three 0x80 0xBF
  else if (b =? 0xF0)%N then four 0x90 0xBF
  else if (b <? 0xF4)%N then four 0x80 0xBF
  else if (b =? 0xF4)%N then four 0x80 0x8F
  else invalid.

Definition within (c : ascii) (lo hi : N) : bool :=
  ((lo <=? N_of_ascii c) && (N_of_ascii c <=? hi))%N.

(** [utf8.DecodeRuneInString]: the width of the encoding that starts the
    input, [0] where the library returns [(RuneError, 1)] for bytes that
    are no encoding (or for the empty input). *)
Definition runeWidth (s : list ascii) : nat :=
  match s with
  | [] => 0
  | c0 :: t =>
      match leadOf c0 with
      | single => 1
      | invalid => 0
      | two =>
          match t with
          | c1 :: _ => if within c1 0x80 0xBF then 2 else 0
          | _ => 0
          end
      | three lo hi =>
          match t with
          | c1 :: c2 :: _ =>
              if within c1 lo hi && within c2 0x80 0xBF then 3 else 0
          | _ => 0
          end
      | four lo hi =>
          match t with
          | c1 :: c2 :: c3 :: _ =>
              if within c1 lo hi && within c2 0x80 0xBF && within c3 0x80 0xBF
              then 4 else 0
          | _ => 0
          end
      end
  end.

(** U+FFFD in UTF-8. *)
Definition replacement : list ascii := ["239"; "191"; "189"]%char.

(** The bytes of a string once every byte that starts no encoding is
    replaced by U+FFFD; [skip] counts the bytes left of the encoding being
    copied. *)
Fixpoint coerceFrom (s : list ascii) (skip : nat) : list ascii :=
  match s with
  | [] => []
  | c :: t =>
      match skip with
      | S k => c :: coerceFrom t k
      | O =>
          match runeWidth s with
          | O => replacement ++ coerceFrom t 0
          | S k => c :: coerceFrom t k
          end
      end
  end.

(** [utf8.ValidString] *)
Fixpoint validFrom (s : list ascii) (skip : nat) : bool :=
  match s with
  | [] => true
  | c :: t =>
      match skip with
      | S k => validFrom t k
      | O =>
          match runeWidth s with
          | O => false
          | S k => validFrom t k
          end
      end
  end.

Definition ValidString (s : string) : bool := validFrom (bytesOf s) 0.

End UTF8.

(* ===================================================================== *)
(** ** Data model *)
(* ===================================================================== *)

(** JSON values as [encoding/json] writes them. *)
Inductive json : Type :=
| JNull
| JStr (s : string)
| JNum (n : Z)
| JArr (l : list json)
| JObj (m : gmap string json).

(** [json.Marshal] of a slice: a nil slice is written [null], any other
    one as an array.  A slice declared with [var] and grown by [append]
    is nil exactly when nothing was appended. *)
Definition marshalSlice {A : Type} (f : A -> json) (l : list A) : json :=
  match l with
  | [] => JNull
  | _ => JArr (map f l)
  end.

(** The text of a query parameter: a Go string, or the bytes
    [json.Marshal] produces for a Go value, kept as that value: the
    strings in [Marshalled j] are the Go strings handed to the encoder,
    and [delivered j] below is what stands in the text for them. *)
Inductive text : Type :=
| Plain (s : string)
| Marshalled (j : json).

(** The string a JSON reader finds where [json.Marshal] wrote the Go
    string [s]: escapes are undone by the reader, but the encoder writes
    every byte of [s] that is not part of a UTF-8 encoding as [\ufffd]. *)
Definition writtenString (s : string) : string :=
  ofBytes (UTF8.coerceFrom (bytesOf s) 0).

(** The value a JSON reader finds in the bytes [Marshalled j] stands for.
    The objects of this program have ASCII literals as keys, which are
    written as they are. *)
Fixpoint delivered (j : json) : json :=
  match j with
  | JNull => JNull
  | JStr s => JStr (writtenString s)
  | JNum n => JNum n
  | JArr l => JArr (map delivered l)
  | JObj m => JObj (delivered <$> m)
  end.

Module libdns.
(** Modelled from the spec: the declaration of [libdns.Record] lives in
    the imported package, outside the repository; its fields are the
    five that [provider.go] reads and writes
    ([{type, name, value, ttl: uint32, metadata: map[string,string]}]).
    [TTL] holds a [uint32] as an integer in [0, 2^32). *)
Record Record' : Type := mkRecord {
  Type' : string;
  Name : string;
  Value : string;
  TTL : Z;
  Metadata : gmap string string
}.
End libdns.
Import libdns.

(** [Provider]: the three configuration strings. *)
Record Provider : Type := mkProvider {
  Host : string;
  Username : string;
  APIToken : string
}.

(** [parseZoneEntry]: one line of the result of [DNS::parse_zone];
    [LineIndex] and [TTL] (here [eTTL]) are Go [int]s. *)
Record parseZoneEntry : Type := mkEntry {
  LineIndex : Z;
  RecordType : string;
  eTTL : Z;
  DNameB64 : string;
  DataB64 : list string
}.

(** Go errors, by the package that makes them. *)
Inductive error : Type :=
| errorString (msg : string)   (* errors.New *)
| httpError (msg : string)     (* net/http, net/url, context *)
| jsonError (msg : string).    (* encoding/json *)

(** A call returning [(v, nil)] or [(nil, err)]. *)
Inductive result (A : Type) : Type :=
| Ok (v : A)
| Err (e : error).
Arguments Ok {A} v.
Arguments Err {A} e.

(** [json.RawMessage], by what [json.Unmarshal] into [[]parseZoneEntry]
    makes of it. *)
Inductive RawMessage : Type :=
| rawEntries (entries : list parseZoneEntry)
| rawInvalid (e : error).

(** A response body, by what decoding it into the envelope
    [{result: {status, data}}] gives. *)
Inductive Body : Type :=
| bodyEnvelope (status : Z) (data : RawMessage)
| bodyInvalid (e : error).

(** [url.Values] *)
Abbreviation Values := (gmap string (list text)).

(** The GET request [dial] builds: [host/execute/module/function?params]
    with basic authentication. *)
Record Request : Type := mkRequest {
  reqHost : string;
  reqModule : string;
  reqFunction : string;
  reqParams : Values;
  reqUser : string;
  reqPassword : string
}.

Definition uint32 (z : Z) : Z := z mod 2 ^ 32.

(* ===================================================================== *)
(** ** Calls against the remote service *)
(* ===================================================================== *)

(** The remote service and the HTTP client are the environment: a state
    [World], the outcome of building a request, and the outcome of sending
    one.  The [context.Context] every operation passes on belongs to it
    too: a cancelled or expired context is an error of [Do]. *)
Class Transport (World : Type) : Type := {
  (** [http.NewRequestWithContext]: [None] when the request is built. *)
  NewRequestWithContext : Request -> option error;
  (** [http.DefaultClient.Do]: the response body or an error, and the
      world afterwards. *)
  Do : Request -> World -> result Body * World
}.

(** What running an operation gives: its return value, the world it
    leaves, and the requests it handed to the HTTP client, in order. *)
Record Run (World A : Type) : Type := mkRun {
  value : A;
  world : World;
  calls : list Request
}.
Arguments mkRun {World A} value world calls.
Arguments value {World A} r.
Arguments world {World A} r.
Arguments calls {World A} r.

Definition Net (World A : Type) : Type := World -> Run World A.

Definition ret {World A} (a : A) : Net World A := fun w => mkRun a w [].

Definition bind {World A B} (m : Net World A) (k : A -> Net World B)
  : Net World B :=
  fun w =>
    let r := m w in
    let r' := k (value r) (world r) in
    mkRun (value r') (world r') (calls r ++ calls r').

(** [v, err := m; if err != nil { return nil, err }; k v] *)
Definition try {World A B} (m : Net World (result A))
    (k : A -> Net World (result B)) : Net World (result B) :=
  bind m (fun r => match r with Ok v => k v | Err e => ret (Err e) end).

Notation "x <- m ;; k" := (try m (fun x => k))
  (at level 100, m at next level, right associativity).

(* ===================================================================== *)
(** ** [provider.go] *)
(* ===================================================================== *)

Definition APICallFailed : error := errorString "API call failed".

Section Provider.

Context {World : Type} `{!Transport World}.

(** The request of [dial]: the URL
    [TrimRight(Host, "/")/execute/module/function?params] and the
    credentials of [SetBasicAuth]. *)
Definition requestFor (p : Provider) (module function : string)
    (params : Values) : Request :=
  mkRequest (GoStrings.TrimRight (Host p) "/") module function
            params (Username p) (APIToken p).

(** [dial] sends a GET request to the cPanel UAPI. *)
Definition dial (p : Provider) (module function : string) (params : Values)
  : Net World (result RawMessage) :=
  fun w =>
    let req := requestFor p module function params in
    match NewRequestWithContext req with
    | Some err => mkRun (Err err) w []
    | None =>
        let '(resp, w') := Do req w in
        match resp with
        | Err err => mkRun (Err err) w' [req]
        | Ok body =>
            match body with
            | bodyInvalid err => mkRun (Err err) w' [req]
            | bodyEnvelope status data =>
                if negb (status =? 1)%Z
                then mkRun (Err APICallFailed) w' [req]
                else mkRun (Ok data) w' [req]
            end
        end
    end.

(** [json.Unmarshal(raw, &entries)] *)
Definition Unmarshal (raw : RawMessage) : result (list parseZoneEntry) :=
  match raw with
  | rawEntries entries => Ok entries
  | rawInvalid err => Err err
  end.

(** The inner loop of [GetRecords]: every fragment is decoded, the
    error of [DecodeString] is dropped. *)
Definition decodeParts (dataB64 : list string) : list string :=
  fold_left (fun dataParts d => dataParts ++ [fst (Base64.DecodeString d)])
            dataB64 [].

(** The body of the outer loop: the record appended for entry [e]. *)
Definition recordOf (zone : string) (e : parseZoneEntry) : Record' :=
  let nameBytes := fst (Base64.DecodeString (DNameB64 e)) in
  let dataParts := decodeParts (DataB64 e) in
  mkRecord (RecordType e)
           (GoStrings.TrimSuffix nameBytes ("." +:+ zone))
           (GoStrings.Join dataParts " ")
           (uint32 (eTTL e))
           {[ "line_index" := Strconv.Itoa (LineIndex e) ]}.

(** [GetRecords] lists all the records in the zone. *)
Definition GetRecords (p : Provider) (zone : string)
  : Net World (result (list Record')) :=
  let params : Values := {[ "zone" := [Plain zone] ]} in
  raw <- dial p "DNS" "parse_zone" params ;;
  match Unmarshal raw with
  | Err err => ret (Err err)
  | Ok entries =>
      ret (Ok (fold_left (fun records e => records ++ [recordOf zone e])
                         entries []))
  end.

(** [parts := strings.Fields(v); if len(parts) >= 3 { serial = parts[2] }] *)
Definition serialFrom (v : string) (serial : string) : string :=
  let parts := GoStrings.Fields v in
  if (3 <=? length parts)%nat then nth 2 parts "" else serial.

(** The serial loop of [AppendRecords]: it stops at the first record of
    type SOA. *)
Fixpoint currentSerial (existing : list Record') (serial : string) : string :=
  match existing with
  | [] => serial
  | r :: rest =>
      if String.eqb (Type' r) "SOA"
      then serialFrom (Value r) serial
      else currentSerial rest serial
  end.

(** One element of the add list. *)
Definition addEntry (zone : string) (r : Record') : gmap string json :=
  {[ "record_type" := JStr (Type' r);
     "dname" := JStr (Name r +:+ "." +:+ zone);
     "ttl" := JNum (TTL r);
     "data" := JArr [JStr (Value r)] ]}.

Definition addList (zone : string) (records : list Record')
  : list (gmap string json) :=
  fold_left (fun add r => add ++ [addEntry zone r]) records [].

(** [AppendRecords] adds records to the zone using [mass_edit_zone]. *)
Definition AppendRecords (p : Provider) (zone : string)
    (records : list Record') : Net World (result (list Record')) :=
  existing <- GetRecords p zone ;;
  let serial := currentSerial existing "0" in
  let add := addList zone records in
  let params : Values :=
    {[ "zone" := [Plain zone];
       "serial" := [Plain serial];
       "add" := [Marshalled (marshalSlice JObj add)] ]} in
  _ <- dial p "DNS" "mass_edit_zone" params ;;
  ret (Ok records).

(** The test of the inner loop of [DeleteRecords]. *)
Definition sameRecord (r ex : Record') : bool :=
  String.eqb (Type' r) (Type' ex)
  && String.eqb (Name r) (Name ex)
  && String.eqb (Value r) (Value ex).

(** [m[key]] on a [map[string]string]: the empty string for a missing key. *)
Definition index (m : gmap string string) (key : string) : string :=
  default "" (m !! key).

(** The two loops of [DeleteRecords] over the state [(serial, toRemove)]. *)
Definition removeStep (r : Record') (st : string * list string)
    (ex : Record') : string * list string :=
  if sameRecord r ex then
    let toRemove := snd st ++ [index (Metadata ex) "line_index"] in
    if String.eqb (Type' ex) "SOA"
    then (serialFrom (Value ex) (fst st), toRemove)
    else (fst st, toRemove)
  else st.

Definition removal (records existing : list Record') : string * list string :=
  fold_left (fun st r => fold_left (removeStep r) existing st)
            records ("0", []).

(** [DeleteRecords] deletes records from the zone using [mass_edit_zone]. *)
Definition DeleteRecords (p : Provider) (zone : string)
    (records : list Record') : Net World (result (list Record')) :=
  existing <- GetRecords p zone ;;
  let '(serial, toRemove) := removal records existing in
  let params : Values :=
    {[ "zone" := [Plain zone];
       "serial" := [Plain serial];
       "remove" := [Marshalled (marshalSlice JStr toRemove)] ]} in
  _ <- dial p "DNS" "mass_edit_zone" params ;;
  ret (Ok records).

(** [SetRecords] replaces records by deleting and then appending them. *)
Definition SetRecords (p : Provider) (zone : string)
    (records : list Record') : Net World (result (list Record')) :=
  _ <- DeleteRecords p zone records ;;
  AppendRecords p zone records.

(** The parameters of the three requests. *)
Definition readParams (zone : string) : Values := {[ "zone" := [Plain zone] ]}.

Definition addParams (zone serial : string) (records : list Record') : Values :=
  {[ "zone" := [Plain zone];
     "serial" := [Plain serial];
     "add" := [Marshalled (marshalSlice JObj (map (addEntry zone) records))] ]}.

Definition removeParams (zone serial : string) (toRemove : list string) : Values :=
  {[ "zone" := [Plain zone];
     "serial" := [Plain serial];
     "remove" := [Marshalled (marshalSlice JStr toRemove)] ]}.

(** The payload of [parse_zone] as [GetRecords] returns it. *)
Definition decoded (zone : string) (raw : RawMessage)
  : result (list Record') :=
  match Unmarshal raw with
  | Err err => Err err
  | Ok entries => Ok (map (recordOf zone) entries)
  end.

(** The outcome of a mass edit: the input records, or the error. *)
Definition confirmed (records : list Record') (r : result RawMessage)
  : result (list Record') :=
  match r with
  | Ok _ => Ok records
  | Err err => Err err
  end.

End Provider.

(* ===================================================================== *)
(** ** A remote that echoes what it stored *)
(* ===================================================================== *)

(** The test double of the remote service: a zone file kept as the lines
    [parse_zone] reports (names and value fragments in base64), edited by
    [mass_edit_zone], with a plan of faults for the next calls.  It
    accepts any serial, and it stores what it reads in the JSON text it is
    sent. *)
Module Mock.

Inductive fault : Type :=
| pass                  (* the call is served *)
| refuse (e : error)    (* the HTTP client fails, nothing reaches the zone *)
| garble (e : error)    (* the body is not the JSON envelope *)
| reject.               (* the envelope carries status 0 *)

Record state : Type := mkState {
  stored : list parseZoneEntry;
  plan : list fault
}.

(** [parse_zone] numbers the lines by their position in the file. *)
Definition numbered (lines : list parseZoneEntry) : list parseZoneEntry :=
  imap (fun i e => mkEntry (Z.of_nat i) (RecordType e) (eTTL e)
                           (DNameB64 e) (DataB64 e)) lines.

(** The line stored for one element of the add list: the [dname]
    base64-encoded as the name, the single [data] element base64-encoded
    as the one value fragment, same type and ttl. *)
Definition echoEntry (li : Z) (m : gmap string json) : option parseZoneEntry :=
  match m !! "record_type", m !! "dname", m !! "ttl", m !! "data" with
  | Some (JStr t), Some (JStr d), Some (JNum ttl), Some (JArr [JStr v]) =>
      Some (mkEntry li t ttl (Base64.EncodeToString d)
                    [Base64.EncodeToString v])
  | _, _, _, _ => None
  end.

(** What the remote reads in a parameter that carries JSON. *)
Definition received (params : Values) (key : string) : json :=
  match params !! key with
  | Some [Marshalled j] => delivered j
  | _ => JNull
  end.

Definition added (params : Values) : list parseZoneEntry :=
  match received params "add" with
  | JArr l =>
      omap (fun j => match j with
                     | JObj m => echoEntry 0 m
                     | _ => None
                     end) l
  | _ => []
  end.

Definition removed (params : Values) : list string :=
  match received params "remove" with
  | JArr l =>
      omap (fun j => match j with JStr s => Some s | _ => None end) l
  | _ => []
  end.

Definition keep (gone : list string) (e : parseZoneEntry) : bool :=
  negb (bool_decide (Strconv.Itoa (LineIndex e) ∈ gone)).

Definition edit (params : Values) (lines : list parseZoneEntry)
  : list parseZoneEntry :=
  List.filter (keep (removed params)) (numbered lines) ++ added params.

Definition noData : RawMessage :=
  rawInvalid (jsonError "cannot unmarshal object into Go value").

Definition serve (req : Request) (lines : list parseZoneEntry)
  : Body * list parseZoneEntry :=
  if String.eqb (reqFunction req) "parse_zone"
  then (bodyEnvelope 1 (rawEntries (numbered lines)), lines)
  else if String.eqb (reqFunction req) "mass_edit_zone"
  then (bodyEnvelope 1 noData, edit (reqParams req) lines)
  else (bodyEnvelope 0 noData, lines).

Definition send (req : Request) (w : state) : result Body * state :=
  match plan w with
  | refuse e :: rest => (Err e, mkState (stored w) rest)
  | garble e :: rest => (Ok (bodyInvalid e), mkState (stored w) rest)
  | reject :: rest => (Ok (bodyEnvelope 0 noData), mkState (stored w) rest)
  | pass :: rest =>
      let '(body, lines) := serve req (stored w) in
      (Ok body, mkState lines rest)
  | [] =>
      let '(body, lines) := serve req (stored w) in
      (Ok body, mkState lines [])
  end.

#[global] Instance transport : Transport state := {|
  NewRequestWithContext := fun _ => None;
  Do := send
|}.

(** A stored line from clear text. *)
Definition line (type name : string) (ttl : Z) (parts : list string)
  : parseZoneEntry :=
  mkEntry 0 type ttl (Base64.EncodeToString name)
          (map Base64.EncodeToString parts).

End Mock.

(** The zone of the scenarios: [example.com.] with an A record and the
    SOA record, serial 42. *)
Module Scenario.
Definition p : Provider := mkProvider "https://cpanel.example.com:2083/" "user" "token".
Definition zone : string := "example.com.".
Definition lines : list parseZoneEntry :=
  [ Mock.line "A" "www.example.com." 300 ["1.2.3.4"];
    Mock.line "SOA" "example.com." 86400
      ["ns1"; "admin"; "42"; "3600"; "1800"; "1209600"; "86400"] ].
Definition w0 : Mock.state := Mock.mkState lines [].
Definition www : Record' := mkRecord "A" "www" "1.2.3.4" 300 ∅.
Definition blog : Record' := mkRecord "CNAME" "blog" "www.example.com." 300 ∅.
Definition soaValue : string := "ns1 admin 42 3600 1800 1209600 86400".
(** The records [GetRecords] reports for [lines]. *)
Definition existing : list Record' :=
  [ mkRecord "A" "www" "1.2.3.4" 300 {[ "line_index" := "0" ]};
    mkRecord "SOA" "example.com." soaValue 86400 {[ "line_index" := "1" ]} ].
(** A zone line whose name is not valid base64: [d3d3] is [www], [*] is
    outside the alphabet. *)
Definition corrupt : list parseZoneEntry :=
  [ mkEntry 0 "A" 300 "d3d3*" ["MS4yLjMuNA=="] ].
Definition reset : error := httpError "connection reset by peer".
(** The SOA record as a deletion target. *)
Definition soa : Record' := mkRecord "SOA" "example.com." soaValue 86400 ∅.
(** A record whose value is the two bytes FF FE, no UTF-8. *)
Definition stray : Record' :=
  mkRecord "TXT" "bom" (String "255" (String "254" "")) 300 ∅.
(** The remote answers the next call with status 0. *)
Definition rejecting : Mock.state := Mock.mkState lines [Mock.reject].
(** The zone file holds the corrupt line. *)
Definition corrupted : Mock.state := Mock.mkState corrupt [].
(** The fourth call fails in the HTTP client. *)
Definition refusing : Mock.state :=
  Mock.mkState lines [Mock.pass; Mock.pass; Mock.pass; Mock.refuse reset].
End Scenario.

(* ===================================================================== *)
(** ** What the loops are compared with *)
(* ===================================================================== *)

Module Spec.

(** [ex.Metadata["line_index"]] *)
Definition lineIndexOf (ex : Record') : string :=
  index (Metadata ex) "line_index".

(** The line indexes of the existing records equal to [r] in type, name
    and value, in zone order. *)
Definition matching (existing : list Record') (r : Record') : list string :=
  map lineIndexOf (List.filter (sameRecord r) existing).

(** The removal list: the matches of each input record, input by input. *)
Definition queued (records existing : list Record') : list string :=
  flat_map (matching existing) records.

(** The third field of the value of an SOA record, when there is one. *)
Definition soaSerial (ex : Record') : list string :=
  if String.eqb (Type' ex) "SOA"
     && (3 <=? length (GoStrings.Fields (Value ex)))%nat
  then [nth 2 (GoStrings.Fields (Value ex)) ""]
  else [].

(** The serials of the SOA records among the matches, in the order the
    loops of [DeleteRecords] meet them. *)
Definition matchedSerials (records existing : list Record') : list string :=
  flat_map (fun r => flat_map soaSerial (List.filter (sameRecord r) existing))
           records.

(** What two records are compared on: type, name, value and ttl. *)
Definition fields (r : Record') : string * string * string * Z :=
  (Type' r, Name r, Value r, TTL r).

(** The first record of type SOA. *)
Definition firstSOA (existing : list Record') : option Record' :=
  List.find (fun r => String.eqb (Type' r) "SOA") existing.

End Spec.

(* ===================================================================== *)
(** ** Further notions used in the statements *)
(* ===================================================================== *)

Module Further.

(** Where every request of the provider [p] for [zone] goes: the [DNS]
    module of the trimmed host, one of the two functions, the credentials
    of [p], and [zone] as the [zone] parameter. *)
Definition addressed (p : Provider) (zone : string) (req : Request) : Prop :=
  reqModule req = "DNS"
  /\ (reqFunction req = "parse_zone" \/ reqFunction req = "mass_edit_zone")
  /\ reqHost req = GoStrings.TrimRight (Host p) "/"
  /\ reqUser req = Username p
  /\ reqPassword req = APIToken p
  /\ reqParams req !! "zone" = Some [Plain zone].

(** An existing record that no input record equals in type, name and
    value. *)
Definition unmatched (records : list Record') (ex : Record') : bool :=
  negb (existsb (fun r => sameRecord r ex) records).

(** Type, name and value are valid UTF-8. *)
Definition wellEncoded (r : Record') : Prop :=
  UTF8.ValidString (Type' r) = true
  /\ UTF8.ValidString (Name r) = true
  /\ UTF8.ValidString (Value r) = true.

(** The line the echoing remote stores for the record [r] it reads in the
    add list. *)
Definition storedLine (zone : string) (r : Record') : parseZoneEntry :=
  mkEntry 0 (writtenString (Type' r)) (TTL r)
          (Base64.EncodeToString (writtenString (Name r +:+ "." +:+ zone)))
          [Base64.EncodeToString (writtenString (Value r))].

(** The echoing remote without faults. *)
Definition serving (lines : list parseZoneEntry) : Mock.state :=
  Mock.mkState lines [].

(** The records [GetRecords] reads in the zone file of the remote. *)
Definition zoneRecords (zone : string) (w : Mock.state) : list Record' :=
  map (recordOf zone) (Mock.numbered (Mock.stored w)).

(** The ASCII white space of [strings.Fields]: tab, line feed, vertical
    tab, form feed, carriage return and space. *)
Definition asciiSpace (c : ascii) : bool :=
  ((9 <=? N_of_ascii c) && (N_of_ascii c <=? 13) || (N_of_ascii c =? 32))%N.

(** A non-empty string without ASCII white space. *)
Definition word (s : string) : Prop :=
  s <> "" /\ List.Forall (fun c => asciiSpace c = false) (bytesOf s).

(** A printable ASCII byte other than the space. *)
Definition tokenByte (c : ascii) : bool :=
  ((0x21 <=? N_of_ascii c) && (N_of_ascii c <=? 0x7e))%N.

(** A non-empty string of such bytes. *)
Definition token (s : string) : bool :=
  negb (String.eqb s "") && forallb tokenByte (bytesOf s).

End Further.

(* ===================================================================== *)
(** ** Facts about the library models *)
(* ===================================================================== *)

Module Base64Facts.
Import Base64.
Local Open Scope N_scope.

#[local] Ltac Zify.zify_post_hook ::= Z.to_euclidean_division_equations.

Lemma land_shiftl_low (a b k : N) : b < 2 ^ k -> N.land (N.shiftl a k) b = 0.
Proof.
  intros Hb. apply N.bits_inj. intros n.
  rewrite N.land_spec, N.bits_0.
  destruct (N.lt_ge_cases n k) as [Hn | Hn].
  - rewrite N.shiftl_spec_low by exact Hn. reflexivity.
  - rewrite <- (N.mod_small b (2 ^ k)) by exact Hb.
    rewrite N.mod_pow2_bits_high by exact Hn. apply andb_false_r.
Qed.

(** Or-ing below a shift is adding. *)
Lemma lor_shiftl_add (a b k : N) :
  b < 2 ^ k -> N.lor (N.shiftl a k) b = a * 2 ^ k + b.
Proof.
  intros Hb.
  rewrite <- N.lxor_lor by (apply land_shiftl_low; exact Hb).
  rewrite <- N.add_nocarry_lxor by (apply land_shiftl_low; exact Hb).
  rewrite N.shiftl_mul_pow2. reflexivity.
Qed.

Lemma sextet_spec (v sh : N) : sextet v sh = (v / 2 ^ sh) mod 64.
Proof.
  unfold sextet. rewrite N.shiftr_div_pow2.
  change 0x3f with (N.ones 6). rewrite N.land_ones. reflexivity.
Qed.

Lemma sextet_lt (v sh : N) : sextet v sh < 64.
Proof. rewrite sextet_spec. apply N.mod_lt. discriminate. Qed.

Lemma byte_spec (v : N) : byte v = ascii_of_N (v mod 256).
Proof.
  unfold byte. change 0xff with (N.ones 8). rewrite N.land_ones. reflexivity.
Qed.

Lemma byte_N_of_ascii (v : N) (c : ascii) : v mod 256 = N_of_ascii c -> byte v = c.
Proof. intros H. rewrite byte_spec, H. apply ascii_N_embedding. Qed.

Lemma val3_spec (b0 b1 b2 : ascii) :
  val3 b0 b1 b2 = N_of_ascii b0 * 65536 + (N_of_ascii b1 * 256 + N_of_ascii b2).
Proof.
  pose proof (N_ascii_bounded b1) as H1. pose proof (N_ascii_bounded b2) as H2.
  unfold val3.
  rewrite (lor_shiftl_add (N_of_ascii b1) _ 8) by exact H2.
  rewrite (lor_shiftl_add (N_of_ascii b0) _ 16)
    by (change (2 ^ 8) with 256; change (2 ^ 16) with 65536; lia).
  reflexivity.
Qed.

(** Four six-bit values put back together. *)
Lemma assemble_spec (s0 s1 s2 s3 : N) :
  s1 < 64 -> s2 < 64 -> s3 < 64 ->
  N.lor (N.shiftl s0 18) (N.lor (N.shiftl s1 12) (N.lor (N.shiftl s2 6) s3))
  = s0 * 262144 + (s1 * 4096 + (s2 * 64 + s3)).
Proof.
  intros H1 H2 H3.
  rewrite (lor_shiftl_add s2 s3 6) by exact H3.
  rewrite (lor_shiftl_add s1 _ 12) by (change (2 ^ 6) with 64; change (2 ^ 12) with 4096; lia).
  rewrite (lor_shiftl_add s0 _ 18)
    by (change (2 ^ 6) with 64; change (2 ^ 12) with 4096;
        change (2 ^ 18) with 262144; lia).
  reflexivity.
Qed.

(** The alphabet is read back by the decoding table. *)
Lemma decodeMap_encodeChar (i : N) : i < 64 -> decodeMap (encodeChar i) = i.
Proof.
  intros Hi.
  assert (Hall : forallb (fun n => decodeMap (encodeChar (N.of_nat n)) =? N.of_nat n)
                   (seq 0 64) = true) by (vm_compute; reflexivity).
  rewrite forallb_forall in Hall.
  specialize (Hall (N.to_nat i)).
  rewrite N2Nat.id in Hall. apply N.eqb_eq, Hall.
  apply in_seq. lia.
Qed.

Lemma decodeMap_valid (i : N) : i < 64 -> negb (decodeMap (encodeChar i) =? 0xff) = true.
Proof.
  intros Hi. rewrite decodeMap_encodeChar by exact Hi.
  apply negb_true_iff, N.eqb_neq. lia.
Qed.

Lemma quantumBytes_3 (b0 b1 b2 : ascii) :
  let val := val3 b0 b1 b2 in
  quantumBytes [sextet val 18; sextet val 12; sextet val 6; sextet val 0]
  = [b0; b1; b2].
Proof.
  intros val. unfold quantumBytes. cbn [length nth Nat.sub take].
  rewrite assemble_spec by apply sextet_lt.
  rewrite !sextet_spec, !N.shiftr_div_pow2.
  subst val. rewrite val3_spec.
  pose proof (N_ascii_bounded b0). pose proof (N_ascii_bounded b1).
  pose proof (N_ascii_bounded b2).
  change (2 ^ 18) with 262144. change (2 ^ 12) with 4096.
  change (2 ^ 6) with 64. change (2 ^ 0) with 1.
  change (2 ^ 16) with 65536. change (2 ^ 8) with 256.
  f_equal; [|f_equal; [|f_equal]]; apply byte_N_of_ascii; lia.
Qed.

Lemma quantumBytes_2 (b0 b1 : ascii) :
  let val := N.lor (N.shiftl (N_of_ascii b0) 16) (N.shiftl (N_of_ascii b1) 8) in
  quantumBytes [sextet val 18; sextet val 12; sextet val 6] = [b0; b1].
Proof.
  intros val. unfold quantumBytes. cbn [length nth Nat.sub take].
  assert (Hval : val = N_of_ascii b0 * 65536 + N_of_ascii b1 * 256).
  { subst val. pose proof (N_ascii_bounded b1).
    rewrite (N.shiftl_mul_pow2 (N_of_ascii b1)).
    rewrite lor_shiftl_add
      by (change (2 ^ 8) with 256; change (2 ^ 16) with 65536; lia).
    reflexivity. }
  assert (Hlow : sextet val 6 * 64 < 2 ^ 12).
  { pose proof (sextet_lt val 6). change (2 ^ 12) with 4096. lia. }
  replace (N.lor (N.shiftl (sextet val 6) 6) 0) with (sextet val 6 * 64)
    by (rewrite N.lor_0_r, N.shiftl_mul_pow2; reflexivity).
  rewrite (lor_shiftl_add (sextet val 12) _ 12) by exact Hlow.
  rewrite (lor_shiftl_add (sextet val 18) _ 18)
    by (pose proof (sextet_lt val 12); change (2 ^ 12) with 4096 in *;
        change (2 ^ 18) with 262144; lia).
  rewrite !sextet_spec, !N.shiftr_div_pow2, Hval.
  pose proof (N_ascii_bounded b0). pose proof (N_ascii_bounded b1).
  change (2 ^ 18) with 262144. change (2 ^ 12) with 4096.
  change (2 ^ 6) with 64. change (2 ^ 16) with 65536. change (2 ^ 8) with 256.
  f_equal; [|f_equal]; apply byte_N_of_ascii; lia.
Qed.

Lemma quantumBytes_1 (b0 : ascii) :
  let val := N.shiftl (N_of_ascii b0) 16 in
  quantumBytes [sextet val 18; sextet val 12] = [b0].
Proof.
  intros val. unfold quantumBytes. cbn [length nth Nat.sub take].
  change (N.shiftl 0 6) with 0. rewrite (N.lor_0_l 0), N.lor_0_r.
  assert (Hval : val = N_of_ascii b0 * 65536)
    by (subst val; rewrite N.shiftl_mul_pow2; reflexivity).
  rewrite (N.shiftl_mul_pow2 (sextet val 12)).
  rewrite (lor_shiftl_add (sextet val 18) _ 18)
    by (pose proof (sextet_lt val 12); change (2 ^ 12) with 4096;
        change (2 ^ 18) with 262144; lia).
  rewrite !sextet_spec, !N.shiftr_div_pow2, Hval.
  pose proof (N_ascii_bounded b0).
  change (2 ^ 18) with 262144. change (2 ^ 12) with 4096.
  change (2 ^ 16) with 65536.
  f_equal; apply byte_N_of_ascii; lia.
Qed.

(** One alphabet byte read by [decodeFrom]. *)
Lemma decodeFrom_sextet (i : N) (rest : list ascii) (dbuf : list N) :
  i < 64 ->
  decodeFrom (encodeChar i :: rest) dbuf
  = if (length (dbuf ++ [i]) =? 4)%nat
    then (quantumBytes (dbuf ++ [i]) ++ fst (decodeFrom rest []),
          snd (decodeFrom rest []))
    else decodeFrom rest (dbuf ++ [i]).
Proof.
  intros Hi. cbn [decodeFrom]. cbv zeta.
  rewrite decodeMap_valid by exact Hi.
  rewrite decodeMap_encodeChar by exact Hi. reflexivity.
Qed.

Lemma list_ind3 {A : Type} (P : list A -> Prop) :
  P [] -> (forall a, P [a]) -> (forall a b, P [a; b]) ->
  (forall a b c l, P l -> P (a :: b :: c :: l)) ->
  forall l, P l.
Proof.
  intros H0 H1 H2 H3. fix IH 1.
  intros [|a [|b [|c l]]]; [exact H0 | apply H1 | apply H2 | apply H3, IH].
Qed.

(** Decoding what [Encode] wrote gives the bytes back, without error. *)
Lemma decodeFrom_encodeBytes (src : list ascii) :
  decodeFrom (encodeBytes src) [] = (src, true).
Proof.
  induction src as [|b0|b0 b1|b0 b1 b2 rest IH] using list_ind3.
  - reflexivity.
  - cbn [encodeBytes]. cbv zeta.
    rewrite !decodeFrom_sextet by apply sextet_lt. cbn [app length Nat.eqb].
    change (decodeFrom [padChar; padChar] ?d)
      with (quantumBytes d, true).
    rewrite quantumBytes_1. reflexivity.
  - cbn [encodeBytes]. cbv zeta.
    rewrite !decodeFrom_sextet by apply sextet_lt. cbn [app length Nat.eqb].
    change (decodeFrom [padChar] ?d) with (quantumBytes d, true).
    rewrite quantumBytes_2. reflexivity.
  - cbn [encodeBytes]. cbv zeta.
    rewrite !decodeFrom_sextet by apply sextet_lt. cbn [app length Nat.eqb].
    rewrite IH. cbn [fst snd]. rewrite quantumBytes_3. reflexivity.
Qed.

Theorem DecodeString_EncodeToString (s : string) :
  DecodeString (EncodeToString s) = (s, true).
Proof.
  unfold DecodeString, EncodeToString.
  rewrite list_ascii_of_string_of_list_ascii, decodeFrom_encodeBytes.
  cbn [fst snd]. rewrite string_of_list_ascii_of_string. reflexivity.
Qed.

End Base64Facts.

Module GoStringsFacts.
Import GoStrings.

Lemma app_cons (c : ascii) (a b : string) : String c a +:+ b = String c (a +:+ b).
Proof. reflexivity. Qed.

Lemma bytesOf_app (a b : string) : bytesOf (a +:+ b) = bytesOf a ++ bytesOf b.
Proof.
  induction a as [|c a IH]; [reflexivity|].
  rewrite app_cons. cbn [list_ascii_of_string]. rewrite IH. reflexivity.
Qed.

Lemma length_bytesOf (s : string) : String.length s = length (bytesOf s).
Proof. induction s as [|c s IH]; [reflexivity|]. cbn. rewrite IH. reflexivity. Qed.

Lemma ofBytes_app (l k : list ascii) : ofBytes (l ++ k) = ofBytes l +:+ ofBytes k.
Proof.
  induction l as [|c l IH]; [reflexivity|].
  cbn [app string_of_list_ascii]. rewrite IH, app_cons. reflexivity.
Qed.

Lemma string_app_assoc (a b c : string) : (a +:+ b) +:+ c = a +:+ (b +:+ c).
Proof.
  induction a as [|x a IH]; [reflexivity|]. rewrite !app_cons, IH. reflexivity.
Qed.

Lemma string_app_nil_r (a : string) : a +:+ "" = a.
Proof.
  induction a as [|x a IH]; [reflexivity|]. rewrite app_cons, IH. reflexivity.
Qed.

Lemma length_app_sub (m suffix : string) :
  (String.length (m +:+ suffix) - String.length suffix = String.length m)%nat.
Proof. rewrite !length_bytesOf, bytesOf_app, length_app. lia. Qed.

Lemma HasSuffix_app (m suffix : string) : HasSuffix (m +:+ suffix) suffix = true.
Proof.
  unfold HasSuffix, sliceFrom. rewrite length_app_sub.
  apply andb_true_intro. split.
  - apply Nat.leb_le. rewrite !length_bytesOf, bytesOf_app, length_app. lia.
  - rewrite bytesOf_app, length_bytesOf, drop_app_length.
    rewrite string_of_list_ascii_of_string. apply String.eqb_refl.
Qed.

(** A suffix that is present is cut off, and nothing more. *)
Lemma TrimSuffix_app (m suffix : string) : TrimSuffix (m +:+ suffix) suffix = m.
Proof.
  unfold TrimSuffix. rewrite HasSuffix_app. unfold sliceTo.
  rewrite length_app_sub, bytesOf_app, length_bytesOf, take_app_length.
  apply string_of_list_ascii_of_string.
Qed.

Lemma HasSuffix_inv (s suffix : string) :
  HasSuffix s suffix = true -> exists m, s = m +:+ suffix.
Proof.
  unfold HasSuffix. intros H. apply andb_prop in H as [_ H].
  apply String.eqb_eq in H.
  exists (sliceTo s (String.length s - String.length suffix)).
  rewrite <- H at 2. unfold sliceTo, sliceFrom.
  rewrite <- ofBytes_app, take_drop. symmetry.
  apply string_of_list_ascii_of_string.
Qed.

Lemma HasSuffix_iff (s suffix : string) :
  HasSuffix s suffix = true <-> exists m, s = m +:+ suffix.
Proof.
  split; [apply HasSuffix_inv|]. intros [m ->]. apply HasSuffix_app.
Qed.

(** A string that does not end in the suffix is returned as it is. *)
Lemma TrimSuffix_other (s suffix : string) :
  (forall m, s <> m +:+ suffix) -> TrimSuffix s suffix = s.
Proof.
  intros H. unfold TrimSuffix.
  destruct (HasSuffix s suffix) eqn:E; [|reflexivity].
  apply HasSuffix_inv in E as [m ->]. destruct (H m). reflexivity.
Qed.


Lemma fold_left_join (sep : string) (rest : list string) (b e : string) :
  fold_left (fun b s => b +:+ sep +:+ s) rest (b +:+ e)
  = b +:+ fold_left (fun b s => b +:+ sep +:+ s) rest e.
Proof.
  revert e. induction rest as [|x rest IH]; intros e; [reflexivity|].
  cbn [fold_left]. rewrite <- IH. f_equal. apply string_app_assoc.
Qed.

Lemma separated_cons (sep e x : string) (rest : list string) :
  separated sep (e :: x :: rest) = e +:+ sep +:+ separated sep (x :: rest).
Proof. reflexivity. Qed.

Lemma Join_separated (elems : list string) (sep : string) :
  Join elems sep = separated sep elems.
Proof.
  destruct elems as [|e rest]; [reflexivity|].
  unfold Join. revert e. induction rest as [|x rest IH]; intros e; [reflexivity|].
  rewrite separated_cons, <- IH. cbn [fold_left].
  rewrite !fold_left_join. reflexivity.
Qed.

End GoStringsFacts.

Module UTF8Facts.
Import UTF8.

(** An encoding that starts the input lies within it, and what follows
    the input does not change it. *)
Lemma runeWidth_prefix (s rest : list ascii) (k : nat) :
  runeWidth s = S k -> S k <= length s /\ runeWidth (s ++ rest) = S k.
Proof.
  destruct s as [|c0 t]; [discriminate|].
  unfold runeWidth. cbn [app].
  destruct (leadOf c0) as [| | |lo hi|lo hi].
  - intros [= <-]. cbn [length]. split; [lia | reflexivity].
  - discriminate.
  - destruct t as [|c1 t]; [discriminate|]. cbn [app length].
    destruct (within c1 128 191); [|discriminate].
    intros [= <-]. split; [lia | reflexivity].
  - destruct t as [|c1 [|c2 t]]; try discriminate. cbn [app length].
    destruct (within c1 lo hi && within c2 128 191); [|discriminate].
    intros [= <-]. split; [lia | reflexivity].
  - destruct t as [|c1 [|c2 [|c3 t]]]; try discriminate. cbn [app length].
    destruct (within c1 lo hi && within c2 128 191 && within c3 128 191);
      [|discriminate].
    intros [= <-]. split; [lia | reflexivity].
Qed.

(** Valid UTF-8 is written as it is. *)
Lemma coerceFrom_valid (s : list ascii) :
  forall skip, validFrom s skip = true -> coerceFrom s skip = s.
Proof.
  induction s as [|c t IH]; intros skip H; [reflexivity|].
  cbn [validFrom coerceFrom] in *. destruct skip as [|k].
  - destruct (runeWidth (c :: t)) as [|k]; [discriminate|].
    rewrite IH by exact H. reflexivity.
  - rewrite IH by exact H. reflexivity.
Qed.

Lemma writtenString_valid (s : string) :
  ValidString s = true -> writtenString s = s.
Proof.
  unfold ValidString, writtenString. intros H.
  rewrite coerceFrom_valid by exact H. apply string_of_list_ascii_of_string.
Qed.

Lemma validFrom_app (a b : list ascii) :
  forall skip, validFrom a skip = true -> skip <= length a ->
               validFrom (a ++ b) skip = validFrom b 0.
Proof.
  induction a as [|c t IH]; intros skip H Hlen.
  - cbn [length] in Hlen. replace skip with 0 by lia. reflexivity.
  - cbn [app validFrom length] in *. destruct skip as [|k].
    + destruct (runeWidth (c :: t)) as [|k] eqn:Hw; [discriminate|].
      destruct (runeWidth_prefix (c :: t) b k Hw) as [Hk Hp].
      cbn [app] in Hp. rewrite Hp. cbn [length] in Hk.
      apply IH; [exact H | lia].
    + apply IH; [exact H | lia].
Qed.

(** Valid strings put one after the other are valid. *)
Lemma ValidString_app (a b : string) :
  ValidString a = true -> ValidString b = true -> ValidString (a +:+ b) = true.
Proof.
  unfold ValidString. intros Ha Hb.
  rewrite GoStringsFacts.bytesOf_app, validFrom_app; [exact Hb | exact Ha | lia].
Qed.

Lemma leadOf_ascii (c : ascii) : (N_of_ascii c < 128)%N -> leadOf c = single.
Proof.
  intros H. unfold leadOf. apply N.ltb_lt in H. rewrite H. reflexivity.
Qed.

Lemma validFrom_ascii (s : list ascii) :
  List.Forall (fun c => (N_of_ascii c < 128)%N) s -> validFrom s 0 = true.
Proof.
  induction 1 as [|c t Hc _ IH]; [reflexivity|].
  cbn [validFrom runeWidth]. rewrite (leadOf_ascii c Hc). exact IH.
Qed.

Lemma string_of_uint_ascii (d : Decimal.uint) :
  List.Forall (fun c => (N_of_ascii c < 128)%N)
              (bytesOf (NilEmpty.string_of_uint d)).
Proof.
  induction d; cbn [NilEmpty.string_of_uint list_ascii_of_string];
    constructor; try assumption; reflexivity.
Qed.

(** The decimal strings of [Itoa] are ASCII. *)
Lemma Itoa_valid (z : Z) : ValidString (Strconv.Itoa z) = true.
Proof.
  unfold ValidString, Strconv.Itoa. apply validFrom_ascii.
  assert (Hu : forall d, List.Forall (fun c => (N_of_ascii c < 128)%N)
                           (bytesOf (NilZero.string_of_uint d))).
  { intros d. unfold NilZero.string_of_uint. destruct d;
      try apply string_of_uint_ascii.
    repeat constructor. }
  destruct (Z.to_int z) as [d|d]; cbn [NilZero.string_of_int list_ascii_of_string].
  - apply Hu.
  - constructor; [reflexivity | apply Hu].
Qed.

Lemma writtenString_Itoa (z : Z) : writtenString (Strconv.Itoa z) = Strconv.Itoa z.
Proof. apply writtenString_valid, Itoa_valid. Qed.

End UTF8Facts.

(** A loop that appends one element per iteration builds the image of the
    list it ranges over. *)
Lemma fold_left_append {A B : Type} (f : A -> B) (l : list A) (acc : list B) :
  fold_left (fun acc x => acc ++ [f x]) l acc = acc ++ map f l.
Proof.
  revert acc. induction l as [|x l IH]; intros acc; cbn [fold_left map].
  - symmetry. apply app_nil_r.
  - rewrite IH, <- app_assoc. reflexivity.
Qed.

(* ===================================================================== *)
(** ** How the operations run *)
(* ===================================================================== *)

Section Runs.

Context {World : Type} `{!Transport World}.

Lemma try_run {A B : Type} (m : Net World (result A))
    (k : A -> Net World (result B)) (w : World) :
  try m k w =
  match value (m w) with
  | Ok v =>
      let r := k v (world (m w)) in
      mkRun (value r) (world r) (calls (m w) ++ calls r)
  | Err e => mkRun (Err e) (world (m w)) (calls (m w))
  end.
Proof.
  unfold try, bind. destruct (value (m w)); cbn [ret value world calls].
  - reflexivity.
  - rewrite app_nil_r. reflexivity.
Qed.

(** [dial] hands at most one request to the HTTP client: the one it
    built, unless building it failed. *)
Lemma dial_calls (p : Provider) (module function : string)
    (params : Values) (w : World) :
  calls (dial p module function params w) =
  match NewRequestWithContext (requestFor p module function params) with
  | Some _ => []
  | None => [requestFor p module function params]
  end.
Proof.
  unfold dial.
  destruct (NewRequestWithContext _); [reflexivity|].
  destruct (Do _ w) as [[body|err] w']; [|reflexivity].
  destruct body as [status data|err]; [|reflexivity].
  destruct (negb (status =? 1)%Z); reflexivity.
Qed.

Lemma dial_calls_length (p : Provider) (module function : string)
    (params : Values) (w : World) :
  length (calls (dial p module function params w)) <= 1.
Proof. rewrite dial_calls. destruct (NewRequestWithContext _); cbn; lia. Qed.

(** A request that was sent was built. *)
Lemma dial_sent (p : Provider) (module function : string)
    (params : Values) (w : World) (req : Request) :
  req ∈ calls (dial p module function params w) ->
  req = requestFor p module function params.
Proof.
  rewrite dial_calls. destruct (NewRequestWithContext _).
  - intros H. inversion H.
  - intros H. apply list_elem_of_singleton in H. exact H.
Qed.

(** [dial] on a response that came back. *)
Lemma dial_response (p : Provider) (module function : string)
    (params : Values) (w w' : World) (body : Body) :
  NewRequestWithContext (requestFor p module function params) = None ->
  Do (requestFor p module function params) w = (Ok body, w') ->
  dial p module function params w =
  mkRun match body with
        | bodyInvalid err => Err err
        | bodyEnvelope status data =>
            if (status =? 1)%Z then Ok data else Err APICallFailed
        end
        w' [requestFor p module function params].
Proof.
  intros Hnew Hdo. unfold dial. rewrite Hnew, Hdo.
  destruct body as [status data|err]; [|reflexivity].
  destruct (status =? 1)%Z; reflexivity.
Qed.



(** [GetRecords] is one [dial] and the projection of its payload. *)
Lemma GetRecords_run (p : Provider) (zone : string) (w : World) :
  let d := dial p "DNS" "parse_zone" (readParams zone) w in
  GetRecords p zone w =
  mkRun match value d with
        | Ok raw => decoded zone raw
        | Err err => Err err
        end (world d) (calls d).
Proof.
  intros d. unfold GetRecords. rewrite try_run. fold (readParams zone). fold d.
  destruct (value d) as [raw|err]; [|reflexivity].
  unfold decoded. destruct (Unmarshal raw) as [entries|err];
    cbn [ret value world calls]; rewrite app_nil_r; [|reflexivity].
  rewrite fold_left_append. reflexivity.
Qed.




Lemma addList_map (zone : string) (records : list Record') :
  addList zone records = map (addEntry zone) records.
Proof. unfold addList. rewrite fold_left_append. reflexivity. Qed.

(** [AppendRecords] after a read that succeeded: one mass edit follows. *)
Lemma AppendRecords_run (p : Provider) (zone : string)
    (records : list Record') (w : World) :
  let g := GetRecords p zone w in
  AppendRecords p zone records w =
  match value g with
  | Ok existing =>
      let d := dial p "DNS" "mass_edit_zone"
                 (addParams zone (currentSerial existing "0") records)
                 (world g) in
      mkRun (confirmed records (value d)) (world d) (calls g ++ calls d)
  | Err err => mkRun (Err err) (world g) (calls g)
  end.
Proof.
  intros g. unfold AppendRecords. rewrite try_run. fold g.
  destruct (value g) as [existing|err]; [|reflexivity].
  cbv zeta. rewrite try_run, addList_map.
  fold (addParams zone (currentSerial existing "0") records).
  destruct (value (dial _ _ _ _ _)); cbn [ret value world calls confirmed];
    rewrite ?app_nil_r; reflexivity.
Qed.

(** [DeleteRecords] after a read that succeeded: one mass edit follows. *)
Lemma DeleteRecords_run (p : Provider) (zone : string)
    (records : list Record') (w : World) :
  let g := GetRecords p zone w in
  DeleteRecords p zone records w =
  match value g with
  | Ok existing =>
      let d := dial p "DNS" "mass_edit_zone"
                 (removeParams zone (fst (removal records existing))
                               (snd (removal records existing)))
                 (world g) in
      mkRun (confirmed records (value d)) (world d) (calls g ++ calls d)
  | Err err => mkRun (Err err) (world g) (calls g)
  end.
Proof.
  intros g. unfold DeleteRecords. rewrite try_run. fold g.
  destruct (value g) as [existing|err]; [|reflexivity].
  cbv zeta. destruct (removal records existing) as [serial toRemove].
  rewrite try_run. cbn [fst snd]. fold (removeParams zone serial toRemove).
  destruct (value (dial _ _ _ _ _)); cbn [ret value world calls confirmed];
    rewrite ?app_nil_r; reflexivity.
Qed.

(** [SetRecords]: the deletion, and the addition only after it succeeded. *)
Lemma SetRecords_run (p : Provider) (zone : string)
    (records : list Record') (w : World) :
  let d := DeleteRecords p zone records w in
  SetRecords p zone records w =
  match value d with
  | Ok _ =>
      let a := AppendRecords p zone records (world d) in
      mkRun (value a) (world a) (calls d ++ calls a)
  | Err err => mkRun (Err err) (world d) (calls d)
  end.
Proof. intros d. unfold SetRecords. apply try_run. Qed.

End Runs.

(* ===================================================================== *)
(** ** The loops of [AppendRecords] and [DeleteRecords] *)
(* ===================================================================== *)

Section Loops.

Import Spec.

Lemma sameRecord_iff (r ex : Record') :
  sameRecord r ex = true <->
  Type' r = Type' ex /\ Name r = Name ex /\ Value r = Value ex.
Proof.
  unfold sameRecord. rewrite !andb_true_iff, !String.eqb_eq. tauto.
Qed.

Lemma last_app_default (l k : list string) (d : string) :
  List.last (l ++ k) d = List.last k (List.last l d).
Proof.
  revert l. induction k as [|x k IH] using rev_ind; intros l.
  - rewrite app_nil_r. reflexivity.
  - rewrite app_assoc, !last_last. reflexivity.
Qed.

Lemma last_default_or_In (l : list string) (d : string) :
  List.last l d = d \/ In (List.last l d) l.
Proof.
  induction l as [|x l IH] using rev_ind; [left; reflexivity|].
  right. rewrite last_last. apply in_or_app. right. left. reflexivity.
Qed.

Lemma soaSerial_In (ex : Record') (s : string) :
  In s (soaSerial ex) <->
  Type' ex = "SOA" /\ 3 <= length (GoStrings.Fields (Value ex))
  /\ s = nth 2 (GoStrings.Fields (Value ex)) "".
Proof.
  unfold soaSerial.
  destruct (String.eqb_spec (Type' ex) "SOA") as [Ht|Ht];
    destruct (Nat.leb_spec 3 (length (GoStrings.Fields (Value ex)))) as [Hl|Hl];
    cbn [andb In]; split; try tauto; try (intros (?&?&?); lia).
  - intros [<-|[]]. auto.
  - intros (_&_&->). left. reflexivity.
Qed.

(** One iteration of the inner loop of [DeleteRecords]. *)
Lemma removeStep_spec (r : Record') (st : string * list string) (ex : Record') :
  removeStep r st ex =
  (List.last (if sameRecord r ex then soaSerial ex else []) (fst st),
   snd st ++ (if sameRecord r ex then [lineIndexOf ex] else [])).
Proof.
  unfold removeStep, soaSerial, serialFrom, lineIndexOf.
  destruct (sameRecord r ex).
  - destruct (String.eqb (Type' ex) "SOA"); cbn [andb]; [|reflexivity].
    destruct (3 <=? length (GoStrings.Fields (Value ex)))%nat; reflexivity.
  - cbn [List.last]. rewrite app_nil_r. destruct st; reflexivity.
Qed.

(** The inner loop: the matches of one input record. *)
Lemma inner_loop (r : Record') (existing : list Record')
    (st : string * list string) :
  fold_left (removeStep r) existing st =
  (List.last (flat_map soaSerial (List.filter (sameRecord r) existing)) (fst st),
   snd st ++ matching existing r).
Proof.
  unfold matching. revert st.
  induction existing as [|ex existing IH]; intros st.
  - cbn. rewrite app_nil_r. destruct st; reflexivity.
  - cbn [fold_left List.filter]. rewrite IH, removeStep_spec. cbn [fst snd].
    destruct (sameRecord r ex); cbn [flat_map map].
    + rewrite last_app_default, <- app_assoc. reflexivity.
    + rewrite app_nil_r. reflexivity.
Qed.

(** Both loops: the serial and the removal list [DeleteRecords] sends. *)
Lemma removal_spec (records existing : list Record') :
  removal records existing =
  (List.last (matchedSerials records existing) "0", queued records existing).
Proof.
  unfold removal, matchedSerials, queued.
  enough (H : forall st,
             fold_left (fun st r => fold_left (removeStep r) existing st) records st
             = (List.last (flat_map (fun r => flat_map soaSerial
                                  (List.filter (sameRecord r) existing)) records)
                     (fst st),
                snd st ++ flat_map (matching existing) records))
    by (rewrite H; reflexivity).
  induction records as [|r records IH]; intros st.
  - cbn. rewrite app_nil_r. destruct st; reflexivity.
  - cbn [fold_left flat_map]. rewrite IH, inner_loop. cbn [fst snd].
    rewrite last_app_default, <- app_assoc. reflexivity.
Qed.

Lemma queued_In (records existing : list Record') (li : string) :
  In li (queued records existing) <->
  exists r ex, In r records /\ In ex existing
               /\ sameRecord r ex = true /\ li = lineIndexOf ex.
Proof.
  unfold queued, matching. rewrite in_flat_map. split.
  - intros (r & Hr & Hli). apply in_map_iff in Hli as (ex & <- & Hex).
    apply filter_In in Hex as [Hex Hsame]. eauto 8.
  - intros (r & ex & Hr & Hex & Hsame & ->). exists r. split; [exact Hr|].
    apply in_map. apply filter_In. auto.
Qed.

Lemma matchedSerials_In (records existing : list Record') (s : string) :
  In s (matchedSerials records existing) <->
  exists r ex, In r records /\ In ex existing /\ sameRecord r ex = true
               /\ Type' ex = "SOA"
               /\ 3 <= length (GoStrings.Fields (Value ex))
               /\ s = nth 2 (GoStrings.Fields (Value ex)) "".
Proof.
  unfold matchedSerials. rewrite in_flat_map. split.
  - intros (r & Hr & Hs). apply in_flat_map in Hs as (ex & Hex & Hs).
    apply filter_In in Hex as [Hex Hsame]. apply soaSerial_In in Hs.
    exists r, ex. tauto.
  - intros (r & ex & Hr & Hex & Hsame & Hs). exists r. split; [exact Hr|].
    apply in_flat_map. exists ex. split; [apply filter_In; auto|].
    apply soaSerial_In. exact Hs.
Qed.

(** The serial loop of [AppendRecords] looks at the first SOA record only. *)
Lemma currentSerial_firstSOA (existing : list Record') (serial : string) :
  currentSerial existing serial =
  match firstSOA existing with
  | Some soa => serialFrom (Value soa) serial
  | None => serial
  end.
Proof.
  unfold firstSOA. induction existing as [|r existing IH]; [reflexivity|].
  cbn [currentSerial find]. destruct (String.eqb (Type' r) "SOA"); auto.
Qed.

End Loops.

(* ===================================================================== *)
(** ** The transport and the reader *)
(* ===================================================================== *)

Section Reader.

Context {World : Type} `{!Transport World}.

(** C9: a response whose envelope decodes but whose [result.status] is not
    1 makes [dial] fail with the error "API call failed" and no payload;
    when the call is the [parse_zone] call of [GetRecords], [GetRecords]
    returns that error and no records. *)
Theorem dial_status_not_1 (p : Provider) (module function : string)
    (params : Values) (w w' : World) (status : Z) (data : RawMessage) :
  NewRequestWithContext (requestFor p module function params) = None ->
  Do (requestFor p module function params) w
    = (Ok (bodyEnvelope status data), w') ->
  status <> 1%Z ->
  value (dial p module function params w) = Err APICallFailed
  /\ forall zone,
       module = "DNS" -> function = "parse_zone" -> params = readParams zone ->
       value (GetRecords p zone w) = Err APICallFailed.
Proof.
  intros Hnew Hdo Hst.
  assert (Hd : value (dial p module function params w) = Err APICallFailed).
  { rewrite (dial_response _ _ _ _ _ _ _ Hnew Hdo). cbn [value].
    destruct (Z.eqb_spec status 1); [contradiction | reflexivity]. }
  split; [exact Hd|].
  intros zone -> -> ->. rewrite GetRecords_run. cbn [value].
  rewrite Hd. reflexivity.
Qed.

(** C2, as the code has it: a payload that does not decode as a sequence
    of zone-line entries makes [GetRecords] return the decoding error and
    no records; a payload that does decode gives one record per entry, in
    order, whether or not the base64 of its name and fragments is well
    formed: the error of [DecodeString] is dropped and the bytes decoded
    before the corrupt position are used. *)
Theorem GetRecords_payload (p : Provider) (zone : string) (w w' : World)
    (data : RawMessage) :
  NewRequestWithContext (requestFor p "DNS" "parse_zone" (readParams zone)) = None ->
  Do (requestFor p "DNS" "parse_zone" (readParams zone)) w
    = (Ok (bodyEnvelope 1 data), w') ->
  match data with
  | rawInvalid err => value (GetRecords p zone w) = Err err
  | rawEntries entries =>
      exists records,
        value (GetRecords p zone w) = Ok records
        /\ length records = length entries
        /\ forall i e, entries !! i = Some e ->
             exists r, records !! i = Some r
               /\ Name r = GoStrings.TrimSuffix
                             (fst (Base64.DecodeString (DNameB64 e)))
                             ("." +:+ zone)
               /\ Value r = GoStrings.Join
                              (map (fun d => fst (Base64.DecodeString d))
                                   (DataB64 e)) " "
  end.
Proof.
  intros Hnew Hdo. rewrite GetRecords_run. cbn [value].
  rewrite (dial_response _ _ _ _ _ _ _ Hnew Hdo). cbn [value Z.eqb Pos.eqb].
  destruct data as [entries|err]; [|reflexivity].
  exists (map (recordOf zone) entries). cbn [decoded Unmarshal].
  split; [reflexivity|]. split; [apply length_map|].
  intros i e Hi. exists (recordOf zone e).
  rewrite list_lookup_fmap, Hi. split; [reflexivity|].
  split; [reflexivity|].
  cbn [recordOf Value]. unfold decodeParts. rewrite fold_left_append.
  reflexivity.
Qed.

(** C7: [GetRecords] takes one trailing [.zone] off the decoded name: a
    name [m.zone] becomes [m] whatever [m] is (so a doubled suffix loses
    one copy), a name that does not end in [.zone] is kept; and the value
    is the decoded fragments with exactly one space between neighbours. *)
Theorem GetRecords_name_value (p : Provider) (zone : string) (w w' : World)
    (entries : list parseZoneEntry) :
  NewRequestWithContext (requestFor p "DNS" "parse_zone" (readParams zone)) = None ->
  Do (requestFor p "DNS" "parse_zone" (readParams zone)) w
    = (Ok (bodyEnvelope 1 (rawEntries entries)), w') ->
  value (GetRecords p zone w) = Ok (map (recordOf zone) entries)
  /\ forall e, In e entries ->
       let name := fst (Base64.DecodeString (DNameB64 e)) in
       let parts := map (fun d => fst (Base64.DecodeString d)) (DataB64 e) in
       (forall m, name = m +:+ "." +:+ zone -> Name (recordOf zone e) = m)
       /\ (forall m, name = m +:+ "." +:+ zone +:+ "." +:+ zone ->
             Name (recordOf zone e) = m +:+ "." +:+ zone)
       /\ ((forall m, name <> m +:+ "." +:+ zone) -> Name (recordOf zone e) = name)
       /\ Value (recordOf zone e) = GoStrings.separated " " parts.
Proof.
  intros Hnew Hdo. split.
  - rewrite GetRecords_run. cbn [value].
    rewrite (dial_response _ _ _ _ _ _ _ Hnew Hdo). reflexivity.
  - intros e _ name parts. cbn [recordOf Name Value]. fold name.
    repeat split.
    + intros m ->. apply GoStringsFacts.TrimSuffix_app.
    + intros m Hm.
      assert (Hassoc : m +:+ "." +:+ zone +:+ "." +:+ zone
                       = (m +:+ "." +:+ zone) +:+ "." +:+ zone)
        by (rewrite !GoStringsFacts.string_app_assoc; reflexivity).
      rewrite Hm, Hassoc. apply GoStringsFacts.TrimSuffix_app.
    + intros Hno. apply GoStringsFacts.TrimSuffix_other. exact Hno.
    + unfold decodeParts. rewrite fold_left_append. cbn [app]. fold parts.
      apply GoStringsFacts.Join_separated.
Qed.

End Reader.

(* ===================================================================== *)
(** ** The writer *)
(* ===================================================================== *)

Section Writer.

Context {World : Type} `{!Transport World}.

Import Spec.

(** The requests of an operation whose read succeeded: those of the read,
    then the mass edit if it could be built. *)
Lemma AppendRecords_calls (p : Provider) (zone : string)
    (records existing : list Record') (w : World) :
  value (GetRecords p zone w) = Ok existing ->
  calls (AppendRecords p zone records w) =
  calls (GetRecords p zone w)
  ++ calls (dial p "DNS" "mass_edit_zone"
              (addParams zone (currentSerial existing "0") records)
              (world (GetRecords p zone w))).
Proof. intros Hg. rewrite AppendRecords_run. cbv zeta. rewrite Hg. reflexivity. Qed.

Lemma DeleteRecords_calls (p : Provider) (zone : string)
    (records existing : list Record') (w : World) :
  value (GetRecords p zone w) = Ok existing ->
  calls (DeleteRecords p zone records w) =
  calls (GetRecords p zone w)
  ++ calls (dial p "DNS" "mass_edit_zone"
              (removeParams zone (fst (removal records existing))
                            (snd (removal records existing)))
              (world (GetRecords p zone w))).
Proof. intros Hg. rewrite DeleteRecords_run. cbv zeta. rewrite Hg. reflexivity. Qed.

Lemma GetRecords_sent (p : Provider) (zone : string) (w : World) (req : Request) :
  req ∈ calls (GetRecords p zone w) -> reqFunction req = "parse_zone".
Proof.
  rewrite GetRecords_run. cbn [calls]. intros H.
  apply dial_sent in H. rewrite H. reflexivity.
Qed.

Lemma NoDup_map_In_inj {A B : Type} (f : A -> B) (l : list A) (a b : A) :
  List.NoDup (map f l) -> In a l -> In b l -> f a = f b -> a = b.
Proof.
  induction l as [|x l IH]; intros Hnd Ha Hb Hf; [destruct Ha|].
  cbn [map] in Hnd. apply List.NoDup_cons_iff in Hnd as [Hx Hnd].
  destruct Ha as [->|Ha], Hb as [->|Hb]; auto.
  - destruct Hx. rewrite Hf. apply in_map. exact Hb.
  - destruct Hx. rewrite <- Hf. apply in_map. exact Ha.
Qed.

Lemma matching_none (existing : list Record') (r : Record') :
  (forall ex, In ex existing -> sameRecord r ex = false) ->
  matching existing r = [].
Proof.
  intros Hr. unfold matching.
  induction existing as [|ex l IH]; [reflexivity|].
  cbn [List.filter]. rewrite (Hr ex) by (left; reflexivity).
  apply IH. intros ex' H'. apply Hr. right. exact H'.
Qed.

Lemma queued_none (records existing : list Record') :
  (forall r ex, In r records -> In ex existing -> sameRecord r ex = false) ->
  queued records existing = [].
Proof.
  intros Hno. unfold queued.
  induction records as [|r l IH]; [reflexivity|].
  cbn [flat_map]. rewrite matching_none, IH; [reflexivity| |].
  - intros r' ex Hr' Hex. apply Hno; [right; exact Hr' | exact Hex].
  - intros ex Hex. apply Hno; [left; reflexivity | exact Hex].
Qed.

(** C5: the add list of [AppendRecords] is the image of the input list
    under [{record_type, dname: name + "." + zone, ttl, data: [value]}],
    and after a read that succeeded one [mass_edit_zone] request carries
    it together with the serial; for [example.com.] with an SOA of value
    [ns1 admin 42 ...] and the one record [{CNAME, blog, www.example.com.,
    300}] that request has [serial=42] and one add entry, of [dname]
    [blog.example.com.]. *)
Theorem AppendRecords_add_list (p : Provider) (zone : string)
    (records existing : list Record') (w : World) :
  value (GetRecords p zone w) = Ok existing ->
  NewRequestWithContext
    (requestFor p "DNS" "mass_edit_zone"
                (addParams zone (currentSerial existing "0") records)) = None ->
  let edit := requestFor p "DNS" "mass_edit_zone"
                (addParams zone (currentSerial existing "0") records) in
  addList zone records = map (addEntry zone) records
  /\ (forall r, In r records ->
        addEntry zone r !! "record_type" = Some (JStr (Type' r))
        /\ addEntry zone r !! "dname" = Some (JStr (Name r +:+ "." +:+ zone))
        /\ addEntry zone r !! "ttl" = Some (JNum (TTL r))
        /\ addEntry zone r !! "data" = Some (JArr [JStr (Value r)]))
  /\ calls (AppendRecords p zone records w) = calls (GetRecords p zone w) ++ [edit]
  /\ reqParams edit !! "add"
     = Some [Marshalled (marshalSlice JObj (map (addEntry zone) records))]
  /\ reqParams edit !! "serial" = Some [Plain (currentSerial existing "0")]
  /\ (zone = Scenario.zone -> records = [Scenario.blog] ->
      (exists soa, firstSOA existing = Some soa /\ Value soa = Scenario.soaValue) ->
      reqParams edit !! "serial" = Some [Plain "42"]
      /\ exists entry,
           reqParams edit !! "add" = Some [Marshalled (JArr [JObj entry])]
           /\ entry !! "dname" = Some (JStr "blog.example.com.")).
Proof.
  intros Hg Hnew edit.
  split; [apply addList_map|].
  split; [intros r _; repeat split; reflexivity|].
  split.
  { rewrite (AppendRecords_calls _ _ _ _ _ Hg), dial_calls, Hnew.
    reflexivity. }
  split; [reflexivity|]. split; [reflexivity|].
  intros -> -> (soa & Hsoa & Hval). subst edit. split.
  - rewrite currentSerial_firstSOA, Hsoa, Hval. reflexivity.
  - eexists. split; reflexivity.
Qed.

(** C6: [DeleteRecords] queues the line index of an existing record
    exactly when the record equals some input record in type, name and
    value; every match of an input record is queued, an input record
    without a match adds nothing; after a read that succeeded the outcome
    of the operation is the outcome of the mass edit alone, and when
    nothing matches the [mass_edit_zone] request is still sent, with an
    empty removal list. *)
Theorem DeleteRecords_queue (p : Provider) (zone : string)
    (records existing : list Record') (w : World) :
  value (GetRecords p zone w) = Ok existing ->
  let toRemove := snd (removal records existing) in
  (forall li, In li toRemove <->
      exists r ex, In r records /\ In ex existing
        /\ Type' r = Type' ex /\ Name r = Name ex /\ Value r = Value ex
        /\ li = lineIndexOf ex)
  /\ toRemove = flat_map (matching existing) records
  /\ (List.NoDup (map lineIndexOf existing) ->
      forall ex, In ex existing ->
        (In (lineIndexOf ex) toRemove <->
         exists r, In r records
           /\ Type' r = Type' ex /\ Name r = Name ex /\ Value r = Value ex))
  /\ (forall r, (forall ex, In ex existing -> sameRecord r ex = false) ->
        matching existing r = [])
  /\ value (DeleteRecords p zone records w)
     = confirmed records
         (value (dial p "DNS" "mass_edit_zone"
                      (removeParams zone (fst (removal records existing)) toRemove)
                      (world (GetRecords p zone w))))
  /\ ((forall r ex, In r records -> In ex existing -> sameRecord r ex = false) ->
      let edit := requestFor p "DNS" "mass_edit_zone" (removeParams zone "0" []) in
      toRemove = []
      /\ reqParams edit !! "remove" = Some [Marshalled JNull]
      /\ (NewRequestWithContext edit = None ->
          calls (DeleteRecords p zone records w)
          = calls (GetRecords p zone w) ++ [edit])
      /\ value (DeleteRecords p zone records w)
         = confirmed records
             (value (dial p "DNS" "mass_edit_zone" (removeParams zone "0" [])
                          (world (GetRecords p zone w))))).
Proof.
  intros Hg toRemove. subst toRemove. rewrite removal_spec. cbn [snd].
  assert (Hin : forall li, In li (queued records existing) <->
      exists r ex, In r records /\ In ex existing
        /\ Type' r = Type' ex /\ Name r = Name ex /\ Value r = Value ex
        /\ li = lineIndexOf ex).
  { intros li. rewrite queued_In. split.
    - intros (r & ex & Hr & Hex & Hs & Hli). apply sameRecord_iff in Hs.
      exists r, ex. tauto.
    - intros (r & ex & Hr & Hex & Ht & Hn & Hv & Hli). exists r, ex.
      rewrite sameRecord_iff. tauto. }
  pose proof (matching_none existing) as Hnone.
  split; [exact Hin|]. split; [reflexivity|]. split.
  { intros Hnd ex Hex. rewrite Hin. split.
    - intros (r & ex' & Hr & Hex' & Ht & Hn & Hv & Hli).
      assert (ex = ex') as <- by
        (apply (NoDup_map_In_inj lineIndexOf existing); assumption).
      exists r. tauto.
    - intros (r & Hr & Ht & Hn & Hv). exists r, ex. tauto. }
  split; [exact Hnone|].
  split.
  { rewrite DeleteRecords_run. cbv zeta. rewrite Hg, removal_spec. reflexivity. }
  intros Hno.
  pose proof (queued_none records existing Hno) as Hq.
  assert (Hs : List.last (matchedSerials records existing) "0" = "0").
  { destruct (last_default_or_In (matchedSerials records existing) "0")
      as [H|H]; [exact H|].
    apply matchedSerials_In in H as (r & ex & Hr & Hex & Hsame & _).
    rewrite (Hno r ex Hr Hex) in Hsame. discriminate. }
  split; [exact Hq|]. split; [reflexivity|]. split.
  - intros Hnew. rewrite (DeleteRecords_calls _ _ _ _ _ Hg), removal_spec.
    cbn [fst snd]. rewrite Hq, Hs, dial_calls, Hnew. reflexivity.
  - rewrite DeleteRecords_run. cbv zeta. rewrite Hg, removal_spec.
    cbn [fst snd value]. rewrite Hq, Hs. reflexivity.
Qed.

Lemma last_In (l : list string) (d : string) : l <> [] -> In (List.last l d) l.
Proof.
  intros Hl. destruct (exists_last Hl) as (l' & x & ->).
  rewrite last_last. apply in_or_app. right. left. reflexivity.
Qed.

(** C8: the serial [DeleteRecords] sends is "0" unless an SOA record is
    among the records matched for deletion: it is the third field of the
    value of such a record (the last one met with three fields or more),
    and "0" in every other case, also when the zone has an SOA record that
    is not being deleted.  After a read that succeeded [DeleteRecords]
    goes on to the one [mass_edit_zone] call that carries this serial and
    the removal list. *)
Theorem DeleteRecords_serial (p : Provider) (zone : string)
    (records existing : list Record') (w : World) :
  value (GetRecords p zone w) = Ok existing ->
  let serial := fst (removal records existing) in
  serial = List.last (matchedSerials records existing) "0"
  /\ ((forall r ex, In r records -> In ex existing ->
         sameRecord r ex = true -> Type' ex <> "SOA") -> serial = "0")
  /\ (serial <> "0" ->
      exists r ex, In r records /\ In ex existing /\ sameRecord r ex = true
        /\ Type' ex = "SOA"
        /\ 3 <= length (GoStrings.Fields (Value ex))
        /\ serial = nth 2 (GoStrings.Fields (Value ex)) "")
  /\ Forall (fun req => reqFunction req = "mass_edit_zone" ->
                        reqParams req !! "serial" = Some [Plain serial])
            (calls (DeleteRecords p zone records w))
  /\ ((exists r ex, In r records /\ In ex existing /\ sameRecord r ex = true
         /\ Type' ex = "SOA"
         /\ 3 <= length (GoStrings.Fields (Value ex))) ->
      exists r ex, In r records /\ In ex existing /\ sameRecord r ex = true
        /\ Type' ex = "SOA"
        /\ 3 <= length (GoStrings.Fields (Value ex))
        /\ serial = nth 2 (GoStrings.Fields (Value ex)) "")
  /\ DeleteRecords p zone records w
     = mkRun
         (confirmed records
            (value (dial p "DNS" "mass_edit_zone"
                      (removeParams zone serial (snd (removal records existing)))
                      (world (GetRecords p zone w)))))
         (world (dial p "DNS" "mass_edit_zone"
                   (removeParams zone serial (snd (removal records existing)))
                   (world (GetRecords p zone w))))
         (calls (GetRecords p zone w)
          ++ calls (dial p "DNS" "mass_edit_zone"
                      (removeParams zone serial (snd (removal records existing)))
                      (world (GetRecords p zone w))))
  /\ reqFunction (requestFor p "DNS" "mass_edit_zone"
                    (removeParams zone serial (snd (removal records existing))))
     = "mass_edit_zone"
  /\ reqParams (requestFor p "DNS" "mass_edit_zone"
                  (removeParams zone serial (snd (removal records existing))))
       !! "serial" = Some [Plain serial]
  /\ (NewRequestWithContext
        (requestFor p "DNS" "mass_edit_zone"
           (removeParams zone serial (snd (removal records existing)))) = None ->
      calls (DeleteRecords p zone records w)
      = calls (GetRecords p zone w)
        ++ [requestFor p "DNS" "mass_edit_zone"
              (removeParams zone serial (snd (removal records existing)))]).
Proof.
  intros Hg serial. subst serial. rewrite removal_spec. cbn [fst snd].
  split; [reflexivity|]. split; [|split; [|split; [|split; [|split]]]].
  - intros Hno.
    destruct (last_default_or_In (matchedSerials records existing) "0")
      as [H|H]; [exact H|].
    apply matchedSerials_In in H as (r & ex & Hr & Hex & Hsame & Ht & _).
    destruct (Hno r ex Hr Hex Hsame Ht).
  - intros Hne.
    destruct (last_default_or_In (matchedSerials records existing) "0")
      as [H|H]; [contradiction|].
    apply matchedSerials_In in H. exact H.
  - rewrite (DeleteRecords_calls _ _ _ _ _ Hg), removal_spec. cbn [fst snd].
    apply Forall_forall. intros req Hreq Hfun.
    apply elem_of_app in Hreq as [Hreq|Hreq].
    + apply GetRecords_sent in Hreq. rewrite Hreq in Hfun. discriminate.
    + apply dial_sent in Hreq. rewrite Hreq. reflexivity.
  - intros (r & ex & Hr & Hex & Hsame & Ht & Hlen).
    apply matchedSerials_In. apply last_In. intros Hnil.
    assert (Hin : In (nth 2 (GoStrings.Fields (Value ex)) "")
                     (matchedSerials records existing))
      by (apply matchedSerials_In; exists r, ex; auto 10).
    rewrite Hnil in Hin. destruct Hin.
  - rewrite DeleteRecords_run. cbv zeta. rewrite Hg, removal_spec.
    reflexivity.
  - split; [reflexivity|]. split; [reflexivity|].
    intros Hnew.
    rewrite (DeleteRecords_calls _ _ _ _ _ Hg), removal_spec. cbn [fst snd].
    rewrite dial_calls, Hnew. reflexivity.
Qed.

End Writer.

(* ===================================================================== *)
(** ** The operations against the echoing remote *)
(* ===================================================================== *)

Module MockFacts.
Import Mock.

Lemma GetRecords_pass (p : Provider) (zone : string)
    (lines : list parseZoneEntry) (rest : list fault) :
  GetRecords p zone (mkState lines (pass :: rest)) =
  mkRun (Ok (map (recordOf zone) (numbered lines))) (mkState lines rest)
        [requestFor p "DNS" "parse_zone" (readParams zone)].
Proof.
  rewrite GetRecords_run. cbv zeta.
  rewrite (dial_response p "DNS" "parse_zone" (readParams zone)
             (mkState lines (pass :: rest)) (mkState lines rest)
             (bodyEnvelope 1 (rawEntries (numbered lines))))
    by reflexivity.
  reflexivity.
Qed.

Lemma edit_pass (p : Provider) (params : Values)
    (lines : list parseZoneEntry) (rest : list fault) :
  dial p "DNS" "mass_edit_zone" params (mkState lines (pass :: rest)) =
  mkRun (Ok noData) (mkState (edit params lines) rest)
        [requestFor p "DNS" "mass_edit_zone" params].
Proof.
  rewrite (dial_response p "DNS" "mass_edit_zone" params
             (mkState lines (pass :: rest)) (mkState (edit params lines) rest)
             (bodyEnvelope 1 noData))
    by reflexivity.
  reflexivity.
Qed.

Lemma dial_refuse (p : Provider) (module function : string) (params : Values)
    (lines : list parseZoneEntry) (e : error) (rest : list fault) :
  dial p module function params (mkState lines (refuse e :: rest)) =
  mkRun (Err e) (mkState lines rest) [requestFor p module function params].
Proof. reflexivity. Qed.

Lemma omap_JStr (l : list string) :
  omap (fun j => match j with JStr s => Some s | _ => None end) (map JStr l) = l.
Proof. induction l as [|x l IH]; [reflexivity|]. cbn. rewrite IH. reflexivity. Qed.

Lemma delivered_JArr (l : list json) : delivered (JArr l) = JArr (map delivered l).
Proof. reflexivity. Qed.

Lemma delivered_strings (l : list string) :
  map delivered (map JStr l) = map JStr (map writtenString l).
Proof. rewrite !map_map. reflexivity. Qed.

(** The remote reads the removal list as [json.Marshal] wrote it. *)
Lemma removed_removeParams (zone serial : string) (toRemove : list string) :
  removed (removeParams zone serial toRemove) = map writtenString toRemove.
Proof.
  unfold removed, received.
  change (removeParams zone serial toRemove !! "remove")
    with (Some [Marshalled (marshalSlice JStr toRemove)]).
  destruct toRemove as [|x l]; [reflexivity|].
  cbn [marshalSlice]. rewrite delivered_JArr, delivered_strings.
  apply omap_JStr.
Qed.

Lemma edit_removeParams (zone serial : string) (toRemove : list string)
    (lines : list parseZoneEntry) :
  edit (removeParams zone serial toRemove) lines
  = List.filter (keep (map writtenString toRemove)) (numbered lines).
Proof.
  unfold edit. rewrite removed_removeParams.
  change (added (removeParams zone serial toRemove)) with (@nil parseZoneEntry).
  apply app_nil_r.
Qed.

(** The line indexes [DeleteRecords] queues are decimal strings, which
    [json.Marshal] writes as they are. *)
Lemma queued_written (zone : string) (records : list Record')
    (entries : list parseZoneEntry) :
  map writtenString (Spec.queued records (map (recordOf zone) entries))
  = Spec.queued records (map (recordOf zone) entries).
Proof.
  rewrite <- (map_id (Spec.queued records (map (recordOf zone) entries))) at 2.
  apply map_ext_in. intros li Hli.
  apply queued_In in Hli as (r & ex & _ & Hex & _ & ->).
  apply in_map_iff in Hex as (e & <- & _).
  apply (UTF8Facts.writtenString_Itoa (LineIndex e)).
Qed.

(** [SetRecords] against the echoing remote when the deletion is served
    and the mass edit of the addition is refused. *)
Lemma SetRecords_refused (p : Provider) (zone : string)
    (records : list Record') (lines : list parseZoneEntry)
    (e : error) (rest : list fault) :
  let existing := map (recordOf zone) (numbered lines) in
  let s := SetRecords p zone records
             (mkState lines (pass :: pass :: pass :: refuse e :: rest)) in
  value s = Err e
  /\ stored (world s)
     = List.filter (keep (Spec.queued records existing)) (numbered lines)
  /\ length (calls s) = 4.
Proof.
  intros existing s. subst s.
  rewrite SetRecords_run. cbv zeta.
  rewrite DeleteRecords_run. cbv zeta.
  rewrite GetRecords_pass. cbn [value world calls]. fold existing.
  rewrite edit_pass. cbn [value world calls confirmed].
  rewrite AppendRecords_run. cbv zeta.
  rewrite GetRecords_pass. cbn [value world calls].
  rewrite dial_refuse. cbn [value world calls confirmed stored].
  rewrite edit_removeParams, removal_spec. cbn [snd].
  subst existing. rewrite queued_written.
  repeat split; reflexivity.
Qed.


Lemma recordOf_echo (zone type name value : string) (ttl li : Z) :
  (0 <= ttl < 2 ^ 32)%Z ->
  recordOf zone (mkEntry li type ttl
                   (Base64.EncodeToString (name +:+ "." +:+ zone))
                   [Base64.EncodeToString value])
  = mkRecord type name value ttl {[ "line_index" := Strconv.Itoa li ]}.
Proof.
  intros Httl. unfold recordOf, decodeParts.
  cbn [RecordType eTTL DNameB64 DataB64 LineIndex fold_left app].
  rewrite !Base64Facts.DecodeString_EncodeToString. cbn [fst].
  rewrite GoStringsFacts.TrimSuffix_app.
  unfold uint32. rewrite Z.mod_small by exact Httl. reflexivity.
Qed.

Lemma omap_cons_Some {A B : Type} (f : A -> option B) (x : A) (y : B)
    (l : list A) :
  f x = Some y -> omap f (x :: l) = y :: omap f l.
Proof. intros H. cbn. rewrite H. reflexivity. Qed.

(** What the remote reads where the add list holds [r]. *)
Lemma echo_delivered (zone : string) (r : Record') :
  match delivered (JObj (addEntry zone r)) with
  | JObj m => echoEntry 0 m
  | _ => None
  end = Some (Further.storedLine zone r).
Proof. reflexivity. Qed.

Lemma omap_echo (zone : string) (records : list Record') :
  omap (fun j => match j with JObj m => echoEntry 0 m | _ => None end)
       (map delivered (map JObj (map (addEntry zone) records)))
  = map (Further.storedLine zone) records.
Proof.
  induction records as [|r l IH]; [reflexivity|].
  cbn [map]. rewrite omap_cons_Some with (y := Further.storedLine zone r)
    by apply echo_delivered.
  rewrite IH. reflexivity.
Qed.

Lemma added_addParams (zone serial : string) (records : list Record') :
  added (addParams zone serial records) = map (Further.storedLine zone) records.
Proof.
  unfold added, received.
  change (addParams zone serial records !! "add")
    with (Some [Marshalled (marshalSlice JObj (map (addEntry zone) records))]).
  destruct records as [|r l]; [reflexivity|].
  change (marshalSlice JObj (map (addEntry zone) (r :: l)))
    with (JArr (map JObj (map (addEntry zone) (r :: l)))).
  rewrite delivered_JArr.
  apply (omap_echo zone (r :: l)).
Qed.

Lemma filter_keep_nil (lines : list parseZoneEntry) :
  List.filter (keep []) lines = lines.
Proof.
  induction lines as [|e l IH]; [reflexivity|].
  cbn [List.filter]. unfold keep at 1.
  rewrite bool_decide_eq_false_2 by apply not_elem_of_nil.
  cbn [negb]. rewrite IH. reflexivity.
Qed.

Lemma edit_addParams (zone serial : string) (records : list Record')
    (lines : list parseZoneEntry) :
  edit (addParams zone serial records) lines
  = numbered lines ++ map (Further.storedLine zone) records.
Proof.
  unfold edit. rewrite added_addParams.
  change (removed (addParams zone serial records)) with (@nil string).
  rewrite filter_keep_nil. reflexivity.
Qed.

Lemma map_imap_stable {A B : Type} (g : A -> B) (l : list A) :
  forall f : nat -> A -> A,
    (forall i e, g (f i e) = g e) -> map g (imap f l) = map g l.
Proof.
  induction l as [|x l IH]; intros f Hf; [reflexivity|].
  cbn [imap map]. rewrite Hf, IH; [reflexivity|].
  intros i e. apply Hf.
Qed.

(** Numbering the lines does not change what [GetRecords] reads in them
    apart from the line index. *)
Lemma fields_numbered (zone : string) (lines : list parseZoneEntry) :
  map (fun e => Spec.fields (recordOf zone e)) (numbered lines)
  = map (fun e => Spec.fields (recordOf zone e)) lines.
Proof. apply map_imap_stable. reflexivity. Qed.

(** The stored line of a record of valid UTF-8 reads as that record. *)
Lemma fields_storedLine (zone : string) (r : Record') :
  UTF8.ValidString zone = true ->
  (0 <= TTL r < 2 ^ 32)%Z ->
  Further.wellEncoded r ->
  Spec.fields (recordOf zone (Further.storedLine zone r)) = Spec.fields r.
Proof.
  intros Hz Httl (Ht & Hn & Hv). unfold Further.storedLine.
  rewrite (UTF8Facts.writtenString_valid (Type' r)) by exact Ht.
  rewrite (UTF8Facts.writtenString_valid (Value r)) by exact Hv.
  rewrite (UTF8Facts.writtenString_valid (Name r +:+ "." +:+ zone))
    by (apply UTF8Facts.ValidString_app; [exact Hn|];
        apply UTF8Facts.ValidString_app; [reflexivity | exact Hz]).
  rewrite recordOf_echo by exact Httl. reflexivity.
Qed.

End MockFacts.

(* ===================================================================== *)
(** ** Writing and reading back *)
(* ===================================================================== *)

Section RoundTrip.


End RoundTrip.

(* ===================================================================== *)
(** ** Replacing records, and the number of requests *)
(* ===================================================================== *)

Section Sequencing.

Context {World : Type} `{!Transport World}.

Lemma DeleteRecords_sent (p : Provider) (zone : string)
    (records : list Record') (w : World) (req : Request) :
  req ∈ calls (DeleteRecords p zone records w) ->
  reqParams req !! "add" = None.
Proof.
  rewrite DeleteRecords_run. cbv zeta.
  destruct (value (GetRecords p zone w)) as [existing|err] eqn:Hg;
    cbn [calls]; rewrite GetRecords_run; cbn [calls]; intros H.
  - apply elem_of_app in H as [H|H]; apply dial_sent in H; rewrite H;
      reflexivity.
  - apply dial_sent in H. rewrite H. reflexivity.
Qed.

Lemma AppendRecords_sent (p : Provider) (zone : string)
    (records : list Record') (w : World) (req : Request) :
  req ∈ calls (AppendRecords p zone records w) ->
  reqParams req !! "remove" = None.
Proof.
  rewrite AppendRecords_run. cbv zeta.
  destruct (value (GetRecords p zone w)) as [existing|err] eqn:Hg;
    cbn [calls]; rewrite GetRecords_run; cbn [calls]; intros H.
  - apply elem_of_app in H as [H|H]; apply dial_sent in H; rewrite H;
      reflexivity.
  - apply dial_sent in H. rewrite H. reflexivity.
Qed.

Lemma GetRecords_calls_length (p : Provider) (zone : string) (w : World) :
  length (calls (GetRecords p zone w)) <= 1.
Proof. rewrite GetRecords_run. cbn [calls]. apply dial_calls_length. Qed.

Lemma AppendRecords_calls_length (p : Provider) (zone : string)
    (records : list Record') (w : World) :
  length (calls (AppendRecords p zone records w)) <= 2.
Proof.
  rewrite AppendRecords_run. cbv zeta.
  pose proof (GetRecords_calls_length p zone w) as Hg.
  destruct (value (GetRecords p zone w)) as [existing|err]; cbn [calls].
  - rewrite length_app.
    pose proof (dial_calls_length p "DNS" "mass_edit_zone"
                  (addParams zone (currentSerial existing "0") records)
                  (world (GetRecords p zone w))).
    lia.
  - lia.
Qed.

Lemma DeleteRecords_calls_length (p : Provider) (zone : string)
    (records : list Record') (w : World) :
  length (calls (DeleteRecords p zone records w)) <= 2.
Proof.
  rewrite DeleteRecords_run. cbv zeta.
  pose proof (GetRecords_calls_length p zone w) as Hg.
  destruct (value (GetRecords p zone w)) as [existing|err]; cbn [calls].
  - rewrite length_app.
    pose proof (dial_calls_length p "DNS" "mass_edit_zone"
                  (removeParams zone (fst (removal records existing))
                                (snd (removal records existing)))
                  (world (GetRecords p zone w))).
    lia.
  - lia.
Qed.

(** A [dial] that returned a payload sent its request. *)
Lemma dial_Ok_calls (p : Provider) (module function : string)
    (params : Values) (w : World) (raw : RawMessage) :
  value (dial p module function params w) = Ok raw ->
  length (calls (dial p module function params w)) = 1.
Proof.
  rewrite dial_calls. unfold dial.
  destruct (NewRequestWithContext _); [discriminate | reflexivity].
Qed.

Lemma GetRecords_Ok_calls (p : Provider) (zone : string) (w : World)
    (records : list Record') :
  value (GetRecords p zone w) = Ok records ->
  length (calls (GetRecords p zone w)) = 1.
Proof.
  rewrite GetRecords_run. cbn [value calls].
  destruct (value (dial p "DNS" "parse_zone" (readParams zone) w)) eqn:Hd;
    [|discriminate].
  intros _. eapply dial_Ok_calls. exact Hd.
Qed.

Lemma AppendRecords_Ok_calls (p : Provider) (zone : string)
    (records out : list Record') (w : World) :
  value (AppendRecords p zone records w) = Ok out ->
  length (calls (AppendRecords p zone records w)) = 2.
Proof.
  rewrite AppendRecords_run. cbv zeta.
  destruct (value (GetRecords p zone w)) as [existing|err] eqn:Hg;
    cbn [value calls]; [|discriminate].
  destruct (value (dial _ _ _ _ _)) as [raw|err] eqn:Hd; [|discriminate].
  intros _. rewrite length_app, (GetRecords_Ok_calls _ _ _ _ Hg),
    (dial_Ok_calls _ _ _ _ _ _ Hd). reflexivity.
Qed.

Lemma DeleteRecords_Ok_calls (p : Provider) (zone : string)
    (records out : list Record') (w : World) :
  value (DeleteRecords p zone records w) = Ok out ->
  length (calls (DeleteRecords p zone records w)) = 2.
Proof.
  rewrite DeleteRecords_run. cbv zeta.
  destruct (value (GetRecords p zone w)) as [existing|err] eqn:Hg;
    cbn [value calls]; [|discriminate].
  destruct (value (dial _ _ _ _ _)) as [raw|err] eqn:Hd; [|discriminate].
  intros _. rewrite length_app, (GetRecords_Ok_calls _ _ _ _ Hg),
    (dial_Ok_calls _ _ _ _ _ _ Hd). reflexivity.
Qed.

(** C4: [SetRecords] runs [DeleteRecords] and then [AppendRecords] in the
    world the deletion left.  When the deletion fails its error is the
    result and only its requests were sent, none with an add list.  When
    it succeeds the result, the final world and the further requests are
    those of [AppendRecords]; none of them carries a removal list, so a
    failed addition is returned as it is and nothing undoes the deletion.
    Against the echoing remote, when the mass edit of the addition is
    refused with [e], [SetRecords] returns [e] and the zone holds the
    lines the deletion left and none of the new records. *)
Theorem SetRecords_delete_then_append (p : Provider) (zone : string)
    (records : list Record') (w : World) :
  let d := DeleteRecords p zone records w in
  let a := AppendRecords p zone records (world d) in
  SetRecords p zone records w
  = match value d with
    | Ok _ => mkRun (value a) (world a) (calls d ++ calls a)
    | Err err => mkRun (Err err) (world d) (calls d)
    end
  /\ Forall (fun req => reqParams req !! "add" = None) (calls d)
  /\ Forall (fun req => reqParams req !! "remove" = None) (calls a)
  /\ forall (lines : list parseZoneEntry) (e : error) (rest : list Mock.fault),
       let s := SetRecords p zone records
                  (Mock.mkState lines
                     (Mock.pass :: Mock.pass :: Mock.pass
                        :: Mock.refuse e :: rest)) in
       value s = Err e
       /\ Mock.stored (world s)
          = List.filter
              (Mock.keep (Spec.queued records
                            (map (recordOf zone) (Mock.numbered lines))))
              (Mock.numbered lines).
Proof.
  intros d a. split; [apply SetRecords_run|].
  split; [apply Forall_forall; intros req; apply DeleteRecords_sent|].
  split; [apply Forall_forall; intros req; apply AppendRecords_sent|].
  intros lines e rest s.
  destruct (MockFacts.SetRecords_refused p zone records lines e rest)
    as (Hv & Hs & _).
  split; assumption.
Qed.

(** C10, as the code has it: [GetRecords] hands at most one request to
    the HTTP client, [AppendRecords] and [DeleteRecords] at most two (the
    read, then the mass edit), and [SetRecords] at most four, those of
    [DeleteRecords] followed by those of [AppendRecords]; an invocation
    that succeeds sends exactly one, two, two and four. *)
Theorem calls_per_operation (p : Provider) (zone : string)
    (records : list Record') (w : World) :
  length (calls (GetRecords p zone w)) <= 1
  /\ length (calls (AppendRecords p zone records w)) <= 2
  /\ length (calls (DeleteRecords p zone records w)) <= 2
  /\ length (calls (SetRecords p zone records w)) <= 4
  /\ (forall out, value (GetRecords p zone w) = Ok out ->
        length (calls (GetRecords p zone w)) = 1)
  /\ (forall out, value (AppendRecords p zone records w) = Ok out ->
        length (calls (AppendRecords p zone records w)) = 2)
  /\ (forall out, value (DeleteRecords p zone records w) = Ok out ->
        length (calls (DeleteRecords p zone records w)) = 2)
  /\ (forall out, value (SetRecords p zone records w) = Ok out ->
        length (calls (SetRecords p zone records w)) = 4).
Proof.
  pose proof (DeleteRecords_calls_length p zone records w) as Hd.
  pose proof (AppendRecords_calls_length p zone records
                (world (DeleteRecords p zone records w))) as Ha.
  split; [apply GetRecords_calls_length|].
  split; [apply AppendRecords_calls_length|].
  split; [exact Hd|].
  split.
  { rewrite SetRecords_run. cbv zeta.
    destruct (value (DeleteRecords p zone records w)); cbn [calls];
      rewrite ?length_app; lia. }
  split; [intros out; apply GetRecords_Ok_calls|].
  split; [intros out; apply AppendRecords_Ok_calls|].
  split; [intros out; apply DeleteRecords_Ok_calls|].
  intros out. rewrite SetRecords_run. cbv zeta.
  destruct (value (DeleteRecords p zone records w)) as [v|err] eqn:Hv;
    cbn [value calls]; [|discriminate].
  intros Hout. rewrite length_app, (DeleteRecords_Ok_calls _ _ _ _ _ Hv),
    (AppendRecords_Ok_calls _ _ _ _ _ Hout). reflexivity.
Qed.

(** With an SOA record that has three fields or more first among the SOA
    records of the zone, [AppendRecords] sends its third field as the
    serial. *)
Lemma AppendRecords_serial (p : Provider) (zone : string)
    (records existing : list Record') (w : World) (soa : Record') :
  value (GetRecords p zone w) = Ok existing ->
  Spec.firstSOA existing = Some soa ->
  3 <= length (GoStrings.Fields (Value soa)) ->
  Forall (fun req => reqFunction req = "mass_edit_zone" ->
            reqParams req !! "serial"
            = Some [Plain (nth 2 (GoStrings.Fields (Value soa)) "")])
         (calls (AppendRecords p zone records w)).
Proof.
  intros Hg Hsoa Hlen.
  rewrite (AppendRecords_calls _ _ _ _ _ Hg).
  apply Forall_forall. intros req Hreq Hfun.
  apply elem_of_app in Hreq as [Hreq|Hreq].
  - apply GetRecords_sent in Hreq. rewrite Hreq in Hfun. discriminate.
  - apply dial_sent in Hreq. rewrite Hreq.
    rewrite currentSerial_firstSOA, Hsoa. unfold serialFrom.
    apply Nat.leb_le in Hlen. rewrite Hlen. reflexivity.
Qed.

End Sequencing.

(* ===================================================================== *)
(** ** The scenarios, run on the echoing remote *)
(* ===================================================================== *)

Module ScenarioRuns.
Import Scenario.

Lemma read_w0 : value (GetRecords p zone w0) = Ok existing.
Proof. vm_compute. reflexivity. Qed.

(** C1: the zone has an SOA record whose third field is [42].
    [AppendRecords] sends [serial=42]; [DeleteRecords], asked to delete
    the A record, sends [serial=0]. *)
Theorem DeleteRecords_serial_not_SOA :
  value (GetRecords p zone w0) = Ok existing
  /\ Spec.firstSOA existing
     = Some (mkRecord "SOA" "example.com." soaValue 86400 {[ "line_index" := "1" ]})
  /\ nth 2 (GoStrings.Fields soaValue) "" = "42"
  /\ map (fun req => (reqFunction req, reqParams req !! "serial"))
         (calls (AppendRecords p zone [blog] w0))
     = [("parse_zone", None); ("mass_edit_zone", Some [Plain "42"])]
  /\ map (fun req => (reqFunction req, reqParams req !! "serial"))
         (calls (DeleteRecords p zone [www] w0))
     = [("parse_zone", None); ("mass_edit_zone", Some [Plain "0"])].
Proof. vm_compute. repeat split; reflexivity. Qed.

(** C2 fails where the base64 is corrupt: the name [d3d3*] is rejected by
    [DecodeString] after the bytes [www], and [GetRecords] returns a
    record named [www] and no error. *)
Lemma GetRecords_corrupt_base64 :
  Base64.DecodeString "d3d3*" = ("www", false)
  /\ value (GetRecords p zone corrupted)
     = Ok [mkRecord "A" "www" "1.2.3.4" 300 {[ "line_index" := "0" ]}].
Proof. vm_compute. split; reflexivity. Qed.

(** C10 fails for [SetRecords]: replacing one record sends four requests. *)
Lemma SetRecords_four_calls :
  ~ length (calls (SetRecords p zone [blog] w0)) <= 2.
Proof.
  assert (H : length (calls (SetRecords p zone [blog] w0)) = 4)
    by (vm_compute; reflexivity).
  rewrite H. lia.
Qed.

(** Replacing the A record when the mass edit of the addition is refused:
    the error comes back, the A line is gone and was not written again. *)
Lemma SetRecords_partial_update :
  value (SetRecords p zone [www] refusing) = Err reset
  /\ map RecordType (Mock.stored (world (SetRecords p zone [www] refusing)))
     = ["SOA"].
Proof. vm_compute. split; reflexivity. Qed.

End ScenarioRuns.

(* ===================================================================== *)
(** ** The theorems at the scenarios *)
(* ===================================================================== *)

Module Witnesses.
Import Scenario.

Lemma dial_status_not_1_witness :
  (0 <> 1)%Z /\ value (GetRecords p zone rejecting) = Err APICallFailed.
Proof.
  split; [lia|].
  refine (proj2 (dial_status_not_1 p "DNS" "parse_zone" (readParams zone)
                   rejecting w0 0 Mock.noData _ _ _) zone _ _ _);
    [reflexivity | reflexivity | lia | reflexivity | reflexivity | reflexivity].
Defined.

Lemma GetRecords_payload_witness :
  exists records,
    value (GetRecords p zone corrupted) = Ok records /\ length records = 1.
Proof.
  destruct (GetRecords_payload p zone corrupted corrupted
              (rawEntries (Mock.numbered corrupt)))
    as (records & Hv & Hl & _); [reflexivity | reflexivity |].
  exists records. split; [exact Hv | exact Hl].
Defined.

Lemma GetRecords_name_value_witness :
  value (GetRecords p zone w0) = Ok (map (recordOf zone) (Mock.numbered lines)).
Proof.
  refine (proj1 (GetRecords_name_value p zone w0 w0 (Mock.numbered lines) _ _));
    reflexivity.
Defined.


Lemma AppendRecords_add_list_witness :
  value (GetRecords p zone w0) = Ok existing
  /\ addList zone [blog] = [addEntry zone blog].
Proof.
  split; [vm_compute; reflexivity|].
  refine (proj1 (AppendRecords_add_list p zone [blog] existing w0 _ _));
    [vm_compute; reflexivity | reflexivity].
Defined.

Lemma DeleteRecords_queue_witness :
  value (GetRecords p zone w0) = Ok existing
  /\ snd (removal [www] existing) = flat_map (Spec.matching existing) [www].
Proof.
  split; [vm_compute; reflexivity|].
  refine (proj1 (proj2 (DeleteRecords_queue p zone [www] existing w0 _)));
    vm_compute; reflexivity.
Defined.

Lemma DeleteRecords_serial_witness :
  value (GetRecords p zone w0) = Ok existing
  /\ map (fun req => (reqFunction req, reqParams req !! "serial"))
         (calls (DeleteRecords p zone [soa] w0))
     = [("parse_zone", None); ("mass_edit_zone", Some [Plain "42"])].
Proof.
  assert (Hg : value (GetRecords p zone w0) = Ok existing)
    by (vm_compute; reflexivity).
  split; [exact Hg|].
  destruct (DeleteRecords_serial p zone [soa] existing w0 Hg)
    as (_ & _ & _ & _ & _ & _ & _ & _ & Hcalls).
  rewrite (Hcalls eq_refl). vm_compute. reflexivity.
Defined.

End Witnesses.

(* ===================================================================== *)
(** ** More about the transport *)
(* ===================================================================== *)

Module TrimRightFacts.
Import GoStrings.

Lemma trimRightBytes_split (c : ascii) (l : list ascii) :
  exists k, l = trimRightBytes c l ++ repeat c k.
Proof.
  induction l as [|x l (k & IH)]; [exists 0; reflexivity|].
  cbn [trimRightBytes].
  destruct (trimRightBytes c l) as [|y t] eqn:E.
  - destruct (Ascii.eqb_spec x c) as [->|Hx].
    + exists (S k). cbn [app] in *. rewrite IH. reflexivity.
    + exists k. cbn [app] in *. rewrite IH. reflexivity.
  - exists k. cbn [app] in *. rewrite IH at 1. reflexivity.
Qed.

Lemma trimRightBytes_last (c : ascii) (l t : list ascii) :
  trimRightBytes c l <> t ++ [c].
Proof.
  revert t. induction l as [|x l IH]; intros t.
  - cbn. destruct t; discriminate.
  - cbn [trimRightBytes].
    destruct (trimRightBytes c l) as [|y u] eqn:E.
    + destruct (Ascii.eqb_spec x c) as [->|Hx].
      * destruct t; discriminate.
      * destruct t as [|a [|b t]]; cbn; try congruence.
    + destruct t as [|a t]; cbn; [discriminate|].
      intros [= _ H]. exact (IH t H).
Qed.

End TrimRightFacts.

Set Warnings "-clear-no-such-hyp".

Section Transport.

Context {World : Type} `{!Transport World}.

(** X1: [dial] returns a payload exactly when the request was built and
    the response is an envelope of status 1, and the payload is the
    [data] of that envelope.  A request that cannot be built is not sent
    and leaves the world as it was; an error of the HTTP client and a body
    that is not the envelope come back as the error of [dial]. *)
Theorem dial_outcomes (p : Provider) (module function : string)
    (params : Values) (w : World) :
  let req := requestFor p module function params in
  let r := dial p module function params w in
  (forall data,
     value r = Ok data <->
     NewRequestWithContext req = None
     /\ exists w', Do req w = (Ok (bodyEnvelope 1 data), w'))
  /\ (forall err, NewRequestWithContext req = Some err ->
        r = mkRun (Err err) w [])
  /\ (NewRequestWithContext req = None ->
        calls r = [req] /\ world r = snd (Do req w))
  /\ (forall err w', NewRequestWithContext req = None ->
        Do req w = (Err err, w') -> value r = Err err)
  /\ (forall err w', NewRequestWithContext req = None ->
        Do req w = (Ok (bodyInvalid err), w') -> value r = Err err).
Proof.
  intros req r. subst r. unfold dial. fold req.
  destruct (NewRequestWithContext req) as [e|] eqn:Hnew.
  { cbn [value]. naive_solver. }
  destruct (Do req w) as [[[status data0|e]|e] w1] eqn:Hdo;
    [destruct (Z.eqb_spec status 1) as [->|Hst]|..];
    cbn [negb value calls world snd]; naive_solver.
Qed.

(** X3: the host of a request is the configured host without its
    trailing slashes: it does not end in a slash, and the configured host
    is it followed by slashes only. *)
Theorem request_host_trimmed (p : Provider) (module function : string)
    (params : Values) :
  let host := reqHost (requestFor p module function params) in
  (exists k, Host p = host +:+ ofBytes (repeat "/"%char k))
  /\ forall t, host <> t +:+ "/".
Proof.
  intros host. subst host. cbn [requestFor reqHost]. unfold GoStrings.TrimRight.
  split.
  - destruct (TrimRightFacts.trimRightBytes_split "/"%char (bytesOf (Host p)))
      as (k & Hk).
    exists k. rewrite <- GoStringsFacts.ofBytes_app, <- Hk.
    symmetry. apply string_of_list_ascii_of_string.
  - intros t H.
    apply (TrimRightFacts.trimRightBytes_last "/"%char (bytesOf (Host p)) (bytesOf t)).
    apply (f_equal list_ascii_of_string) in H.
    rewrite list_ascii_of_string_of_list_ascii, GoStringsFacts.bytesOf_app in H.
    exact H.
Qed.

End Transport.

(* ===================================================================== *)
(** ** More about the four operations *)
(* ===================================================================== *)

Section Operations.

Context {World : Type} `{!Transport World}.

Import Spec Further.

Lemma addressed_read (p : Provider) (zone : string) :
  addressed p zone (requestFor p "DNS" "parse_zone" (readParams zone)).
Proof. unfold addressed. cbn. auto 10. Qed.

Lemma addressed_add (p : Provider) (zone serial : string)
    (records : list Record') :
  addressed p zone
    (requestFor p "DNS" "mass_edit_zone" (addParams zone serial records)).
Proof. unfold addressed. repeat split; auto. Qed.

Lemma addressed_remove (p : Provider) (zone serial : string)
    (toRemove : list string) :
  addressed p zone
    (requestFor p "DNS" "mass_edit_zone" (removeParams zone serial toRemove)).
Proof. unfold addressed. repeat split; auto. Qed.

Lemma GetRecords_addressed (p : Provider) (zone : string) (w : World)
    (req : Request) :
  req ∈ calls (GetRecords p zone w) ->
  addressed p zone req /\ reqFunction req = "parse_zone".
Proof.
  rewrite GetRecords_run. cbn [calls]. intros H.
  apply dial_sent in H. subst req. split; [apply addressed_read | reflexivity].
Qed.

Lemma AppendRecords_addressed (p : Provider) (zone : string)
    (records : list Record') (w : World) (req : Request) :
  req ∈ calls (AppendRecords p zone records w) -> addressed p zone req.
Proof.
  rewrite AppendRecords_run. cbv zeta.
  destruct (value (GetRecords p zone w)) as [existing|err]; cbn [calls];
    intros H.
  - apply elem_of_app in H as [H|H].
    + apply GetRecords_addressed in H. tauto.
    + apply dial_sent in H. subst req. apply addressed_add.
  - apply GetRecords_addressed in H. tauto.
Qed.

Lemma DeleteRecords_addressed (p : Provider) (zone : string)
    (records : list Record') (w : World) (req : Request) :
  req ∈ calls (DeleteRecords p zone records w) -> addressed p zone req.
Proof.
  rewrite DeleteRecords_run. cbv zeta.
  destruct (value (GetRecords p zone w)) as [existing|err]; cbn [calls];
    intros H.
  - apply elem_of_app in H as [H|H].
    + apply GetRecords_addressed in H. tauto.
    + apply dial_sent in H. subst req. apply addressed_remove.
  - apply GetRecords_addressed in H. tauto.
Qed.

(** X2: every request of the four operations goes to the [DNS] module of
    the trimmed host with the credentials of the provider and the zone as
    [zone] parameter, and calls [parse_zone] or [mass_edit_zone]; no write
    sends [mass_edit_zone] unless its own read just before succeeded, so
    the first request of every operation is a [parse_zone]. *)
Theorem requests_addressed (p : Provider) (zone : string)
    (records : list Record') (w : World) :
  Forall (addressed p zone) (calls (GetRecords p zone w))
  /\ Forall (addressed p zone) (calls (AppendRecords p zone records w))
  /\ Forall (addressed p zone) (calls (DeleteRecords p zone records w))
  /\ Forall (addressed p zone) (calls (SetRecords p zone records w))
  /\ Forall (fun req => reqFunction req = "parse_zone")
            (calls (GetRecords p zone w))
  /\ (forall req rest,
        calls (AppendRecords p zone records w) = req :: rest
        \/ calls (DeleteRecords p zone records w) = req :: rest
        \/ calls (SetRecords p zone records w) = req :: rest ->
        reqFunction req = "parse_zone").
Proof.
  split; [apply Forall_forall; intros req H; apply GetRecords_addressed in H; tauto|].
  split; [apply Forall_forall; intros req; apply AppendRecords_addressed|].
  split; [apply Forall_forall; intros req; apply DeleteRecords_addressed|].
  split.
  { rewrite SetRecords_run. cbv zeta. apply Forall_forall. intros req.
    destruct (value (DeleteRecords p zone records w)); cbn [calls].
    - intros H. apply elem_of_app in H as [H|H].
      + eapply DeleteRecords_addressed. exact H.
      + eapply AppendRecords_addressed. exact H.
    - apply DeleteRecords_addressed. }
  split; [apply Forall_forall; intros req; apply GetRecords_sent|].
  assert (Ha : forall w' req rest,
             calls (AppendRecords p zone records w') = req :: rest ->
             reqFunction req = "parse_zone").
  { intros w' req rest. rewrite AppendRecords_run. cbv zeta.
    pose proof (GetRecords_Ok_calls p zone w') as Hok.
    destruct (value (GetRecords p zone w')) as [existing|err]; cbn [calls].
    - specialize (Hok existing eq_refl).
      destruct (calls (GetRecords p zone w')) as [|g l] eqn:Hg; [discriminate|].
      intros [= -> _]. apply (GetRecords_sent p zone w'). rewrite Hg. left.
    - intros Hg. apply (GetRecords_sent p zone w'). rewrite Hg. left. }
  assert (Hd : forall req rest,
             calls (DeleteRecords p zone records w) = req :: rest ->
             reqFunction req = "parse_zone").
  { intros req rest. rewrite DeleteRecords_run. cbv zeta.
    pose proof (GetRecords_Ok_calls p zone w) as Hok.
    destruct (value (GetRecords p zone w)) as [existing|err]; cbn [calls].
    - specialize (Hok existing eq_refl).
      destruct (calls (GetRecords p zone w)) as [|g l] eqn:Hg; [discriminate|].
      intros [= -> _]. apply (GetRecords_sent p zone w). rewrite Hg. left.
    - intros Hg. apply (GetRecords_sent p zone w). rewrite Hg. left. }
  intros req rest [H|[H|H]]; [exact (Ha w req rest H) | exact (Hd req rest H) |].
  revert H. rewrite SetRecords_run. cbv zeta.
  pose proof (DeleteRecords_Ok_calls p zone records) as Hok.
  destruct (value (DeleteRecords p zone records w)) as [v|err] eqn:Hv;
    cbn [calls].
  - specialize (Hok v w Hv).
    destruct (calls (DeleteRecords p zone records w)) as [|g l] eqn:Hg;
      [discriminate|].
    intros [= <- _]. apply (Hd g l). reflexivity.
  - apply Hd.
Qed.

(** X4: a write that succeeds returns the very list it was given. *)
Theorem writes_return_input (p : Provider) (zone : string)
    (records out : list Record') (w : World) :
  (value (AppendRecords p zone records w) = Ok out -> out = records)
  /\ (value (DeleteRecords p zone records w) = Ok out -> out = records)
  /\ (value (SetRecords p zone records w) = Ok out -> out = records).
Proof.
  assert (Ha : forall w', value (AppendRecords p zone records w') = Ok out ->
                          out = records).
  { intros w'. rewrite AppendRecords_run. cbv zeta.
    destruct (value (GetRecords p zone w')); cbn [value]; [|discriminate].
    destruct (value (dial _ _ _ _ _)); cbn [confirmed]; congruence. }
  split; [apply Ha|]. split.
  - rewrite DeleteRecords_run. cbv zeta.
    destruct (value (GetRecords p zone w)); cbn [value]; [|discriminate].
    destruct (value (dial _ _ _ _ _)); cbn [confirmed]; congruence.
  - rewrite SetRecords_run. cbv zeta.
    destruct (value (DeleteRecords p zone records w)); cbn [value];
      [apply Ha | discriminate].
Qed.

(** X5: when the read fails, [AppendRecords], [DeleteRecords] and
    [SetRecords] return the error of the read, leave the world the read
    left and send nothing after it: no [mass_edit_zone] request. *)
Theorem failed_read_aborts (p : Provider) (zone : string)
    (records : list Record') (w : World) (err : error) :
  value (GetRecords p zone w) = Err err ->
  let g := GetRecords p zone w in
  AppendRecords p zone records w = mkRun (Err err) (world g) (calls g)
  /\ DeleteRecords p zone records w = mkRun (Err err) (world g) (calls g)
  /\ SetRecords p zone records w = mkRun (Err err) (world g) (calls g)
  /\ Forall (fun req => reqFunction req <> "mass_edit_zone")
            (calls (SetRecords p zone records w)).
Proof.
  intros Hg g.
  assert (Hd : DeleteRecords p zone records w = mkRun (Err err) (world g) (calls g))
    by (rewrite DeleteRecords_run; cbv zeta; rewrite Hg; reflexivity).
  assert (Hs : SetRecords p zone records w = mkRun (Err err) (world g) (calls g))
    by (rewrite SetRecords_run; cbv zeta; rewrite Hd; reflexivity).
  split; [rewrite AppendRecords_run; cbv zeta; rewrite Hg; reflexivity|].
  split; [exact Hd|]. split; [exact Hs|].
  rewrite Hs. cbn [calls]. apply Forall_forall. intros req Hreq.
  apply GetRecords_sent in Hreq. rewrite Hreq. discriminate.
Qed.

End Operations.

(* ===================================================================== *)
(** ** More about the reader *)
(* ===================================================================== *)

Module StrconvFacts.

Lemma to_int_proper (z : Z) :
  Z.to_int z <> Decimal.Pos Decimal.Nil /\ Z.to_int z <> Decimal.Neg Decimal.Nil.
Proof.
  destruct z as [|q|q]; cbn; split; try discriminate; intros [= H];
    exact (DecimalPos.Unsigned.to_uint_nonnil q H).
Qed.

(** Different integers have different decimal strings. *)
Lemma Itoa_inj (a b : Z) : Strconv.Itoa a = Strconv.Itoa b -> a = b.
Proof.
  unfold Strconv.Itoa. intros H.
  apply DecimalZ.to_int_inj.
  destruct (to_int_proper a) as [Ha1 Ha2]. destruct (to_int_proper b) as [Hb1 Hb2].
  pose proof (NilZero.isi _ Ha1 Ha2) as Ea.
  pose proof (NilZero.isi _ Hb1 Hb2) as Eb.
  rewrite H in Ea. congruence.
Qed.

End StrconvFacts.

Section ReaderMore.

Context {World : Type} `{!Transport World}.

Import Spec Further.

Lemma NoDup_map_inj {A B : Type} (f : A -> B) (l : list A) :
  (forall a b, In a l -> In b l -> f a = f b -> a = b) ->
  List.NoDup l -> List.NoDup (map f l).
Proof.
  induction l as [|x l IH]; intros Hinj Hnd; [constructor|].
  apply List.NoDup_cons_iff in Hnd as [Hx Hnd]. cbn [map].
  apply List.NoDup_cons.
  - intros Hin. apply in_map_iff in Hin as (y & Hy & Hyl).
    assert (y = x) by (apply Hinj; [right; exact Hyl | left; reflexivity | exact Hy]).
    subst y. contradiction.
  - apply IH; [|exact Hnd].
    intros a b Ha Hb. apply Hinj; right; assumption.
Qed.

Lemma lineIndexOf_recordOf (zone : string) (e : parseZoneEntry) :
  lineIndexOf (recordOf zone e) = Strconv.Itoa (LineIndex e).
Proof. reflexivity. Qed.

(** X6: the records [GetRecords] returns are one per entry of the
    payload, in its order; each has a ttl that is a [uint32] (the ttl of
    the entry reduced modulo 2^32) and as metadata the line index of its
    entry in decimal; entries with different line indexes give records
    with different [line_index] metadata. *)
Theorem GetRecords_records (p : Provider) (zone : string) (w : World)
    (entries : list parseZoneEntry) :
  value (dial p "DNS" "parse_zone" (readParams zone) w) = Ok (rawEntries entries) ->
  exists records,
    value (GetRecords p zone w) = Ok records
    /\ length records = length entries
    /\ map lineIndexOf records = map (fun e => Strconv.Itoa (LineIndex e)) entries
    /\ Forall (fun r => (0 <= TTL r < 2 ^ 32)%Z
                        /\ exists li, Metadata r = {[ "line_index" := Strconv.Itoa li ]})
              records
    /\ (forall i e, entries !! i = Some e ->
          exists r, records !! i = Some r
                    /\ Type' r = RecordType e
                    /\ TTL r = (eTTL e mod 2 ^ 32)%Z)
    /\ (List.NoDup (map LineIndex entries) ->
        List.NoDup (map lineIndexOf records)).
Proof.
  intros Hd. exists (map (recordOf zone) entries).
  split; [rewrite GetRecords_run; cbn [value]; rewrite Hd; reflexivity|].
  split; [apply length_map|].
  assert (Hli : map lineIndexOf (map (recordOf zone) entries)
                = map (fun e => Strconv.Itoa (LineIndex e)) entries)
    by (rewrite map_map; reflexivity).
  split; [exact Hli|]. split.
  { apply Forall_forall. intros r Hr.
    apply list_elem_of_fmap in Hr as (e & -> & _). split.
    - cbn [recordOf TTL]. unfold uint32. apply Z.mod_pos_bound. reflexivity.
    - exists (LineIndex e). reflexivity. }
  split.
  { intros i e Hi. exists (recordOf zone e).
    rewrite list_lookup_fmap, Hi. repeat split; reflexivity. }
  intros Hnd. rewrite Hli.
  rewrite <- (map_map LineIndex Strconv.Itoa).
  apply NoDup_map_inj; [|exact Hnd].
  intros a b _ _. apply StrconvFacts.Itoa_inj.
Qed.

(** X7: an entry whose name and fragments are the standard base64 of
    [name] and [parts] is read as the record named [name] without one
    trailing [.zone], whose value is [parts] with exactly one space
    between neighbours (the empty string for no fragment). *)
Theorem GetRecords_clear_text (p : Provider) (zone : string) (w : World)
    (entries : list parseZoneEntry) (i : nat) (e : parseZoneEntry)
    (name : string) (parts : list string) :
  value (dial p "DNS" "parse_zone" (readParams zone) w) = Ok (rawEntries entries) ->
  entries !! i = Some e ->
  DNameB64 e = Base64.EncodeToString name ->
  DataB64 e = map Base64.EncodeToString parts ->
  exists records r,
    value (GetRecords p zone w) = Ok records
    /\ records !! i = Some r
    /\ Name r = GoStrings.TrimSuffix name ("." +:+ zone)
    /\ Value r = GoStrings.separated " " parts.
Proof.
  intros Hd Hi Hname Hdata.
  exists (map (recordOf zone) entries), (recordOf zone e).
  split; [rewrite GetRecords_run; cbn [value]; rewrite Hd; reflexivity|].
  split; [rewrite list_lookup_fmap, Hi; reflexivity|].
  cbn [recordOf Name Value]. rewrite Hname, Hdata.
  rewrite Base64Facts.DecodeString_EncodeToString. cbn [fst].
  split; [reflexivity|].
  unfold decodeParts. rewrite fold_left_append, map_map. cbn [app].
  rewrite GoStringsFacts.Join_separated. f_equal.
  rewrite <- (map_id parts) at 2. apply map_ext. intros a.
  rewrite Base64Facts.DecodeString_EncodeToString. reflexivity.
Qed.

End ReaderMore.

(* ===================================================================== *)
(** ** More about the writer *)
(* ===================================================================== *)

Module FieldsFacts.
Import GoStrings Further.

Lemma spaceWidth_tokenByte (c : ascii) (rest : list ascii) :
  tokenByte c = true -> spaceWidth (c :: rest) = 0.
Proof.
  unfold tokenByte, spaceWidth. intros H.
  apply andb_prop in H as [Hlo Hhi].
  apply N.leb_le in Hlo. apply N.leb_le in Hhi.
  set (b := N_of_ascii c) in *.
  assert (H1 : ((9 <=? b) && (b <=? 13) || (b =? 32))%N = false).
  { apply orb_false_intro; [apply andb_false_intro2; apply N.leb_gt; lia|].
    apply N.eqb_neq. lia. }
  rewrite H1.
  assert (HC2 : (b =? 0xC2)%N = false) by (apply N.eqb_neq; lia).
  assert (HE1 : (b =? 0xE1)%N = false) by (apply N.eqb_neq; lia).
  assert (HE2 : (b =? 0xE2)%N = false) by (apply N.eqb_neq; lia).
  assert (HE3 : (b =? 0xE3)%N = false) by (apply N.eqb_neq; lia).
  destruct rest as [|c1 [|c2 rest]]; [reflexivity| |];
    rewrite ?HC2, ?HE1, ?HE2, ?HE3; reflexivity.
Qed.

Lemma fieldsFrom_token (t rest cur : list ascii) :
  forallb tokenByte t = true ->
  fieldsFrom (t ++ rest) 0 cur = fieldsFrom rest 0 (cur ++ t).
Proof.
  revert cur. induction t as [|c t IH]; intros cur Ht.
  - rewrite app_nil_r. reflexivity.
  - cbn [forallb] in Ht. apply andb_prop in Ht as [Hc Ht].
    change ((c :: t) ++ rest) with (c :: (t ++ rest)).
    cbn [fieldsFrom]. rewrite spaceWidth_tokenByte by exact Hc.
    rewrite IH by exact Ht. rewrite <- app_assoc. reflexivity.
Qed.

Lemma fieldsFrom_space (rest cur : list ascii) :
  fieldsFrom (" "%char :: rest) 0 cur = flush cur ++ fieldsFrom rest 0 [].
Proof. reflexivity. Qed.

Lemma token_bytes (s : string) :
  token s = true ->
  forallb tokenByte (bytesOf s) = true /\ flush (bytesOf s) = [s].
Proof.
  unfold token. intros H. apply andb_prop in H as [Hne Hall].
  split; [exact Hall|].
  destruct s as [|c s]; [discriminate|].
  unfold flush. cbn [list_ascii_of_string].
  change (ofBytes (c :: bytesOf s)) with (String c (ofBytes (bytesOf s))).
  rewrite string_of_list_ascii_of_string. reflexivity.
Qed.

(** Tokens joined by single spaces are split into the same tokens. *)
Lemma Fields_separated (parts : list string) :
  forallb token parts = true -> Fields (separated " " parts) = parts.
Proof.
  unfold Fields. induction parts as [|t parts IH]; intros H; [reflexivity|].
  cbn [forallb] in H. apply andb_prop in H as [Ht Hparts].
  destruct (token_bytes t Ht) as [Hall Hflush].
  destruct parts as [|u parts].
  - cbn [separated].
    rewrite <- (app_nil_r (bytesOf t)), fieldsFrom_token by exact Hall.
    cbn [fieldsFrom app]. exact Hflush.
  - rewrite GoStringsFacts.separated_cons, !GoStringsFacts.bytesOf_app.
    rewrite fieldsFrom_token by exact Hall.
    change (bytesOf " ") with [" "%char]. cbn [app].
    rewrite fieldsFrom_space, Hflush, IH by exact Hparts. reflexivity.
Qed.

End FieldsFacts.

Section WriterMore.

Context {World : Type} `{!Transport World}.

Import Spec Further.

Lemma currentSerial_no_SOA (existing : list Record') (serial : string) :
  List.Forall (fun r => Type' r <> "SOA") existing ->
  currentSerial existing serial = serial.
Proof.
  induction 1 as [|r l Hr _ IH]; [reflexivity|].
  cbn [currentSerial]. apply String.eqb_neq in Hr. rewrite Hr. exact IH.
Qed.

Lemma currentSerial_stops (before after : list Record') (soa : Record')
    (serial : string) :
  List.Forall (fun r => Type' r <> "SOA") before ->
  Type' soa = "SOA" ->
  currentSerial (before ++ soa :: after) serial = serialFrom (Value soa) serial.
Proof.
  intros Hb Hs. induction Hb as [|r l Hr _ IH].
  - cbn [app currentSerial]. rewrite Hs. reflexivity.
  - cbn [app currentSerial]. apply String.eqb_neq in Hr. rewrite Hr. exact IH.
Qed.

Lemma AppendRecords_serial_sent (p : Provider) (zone : string)
    (records existing : list Record') (w : World) :
  value (GetRecords p zone w) = Ok existing ->
  Forall (fun req => reqFunction req = "mass_edit_zone" ->
            reqParams req !! "serial" = Some [Plain (currentSerial existing "0")])
         (calls (AppendRecords p zone records w)).
Proof.
  intros Hg. rewrite (AppendRecords_calls _ _ _ _ _ Hg).
  apply Forall_forall. intros req Hreq Hfun.
  apply elem_of_app in Hreq as [Hreq|Hreq].
  - apply GetRecords_sent in Hreq. rewrite Hreq in Hfun. discriminate.
  - apply dial_sent in Hreq. rewrite Hreq. reflexivity.
Qed.

(** X9: [AppendRecords] sends the serial "0" when the zone has no record
    of type SOA, and also when the first SOA record has fewer than three
    fields, whatever the records after it are: only the first SOA record
    is looked at. *)
Theorem AppendRecords_default_serial (p : Provider) (zone : string)
    (records before after : list Record') (w : World) (soa : Record') :
  List.Forall (fun r => Type' r <> "SOA") before ->
  (value (GetRecords p zone w) = Ok before ->
   Forall (fun req => reqFunction req = "mass_edit_zone" ->
             reqParams req !! "serial" = Some [Plain "0"])
          (calls (AppendRecords p zone records w)))
  /\ (value (GetRecords p zone w) = Ok (before ++ soa :: after) ->
      Type' soa = "SOA" ->
      Forall (fun req => reqFunction req = "mass_edit_zone" ->
                reqParams req !! "serial"
                = Some [Plain (if (3 <=? length (GoStrings.Fields (Value soa)))%nat
                               then nth 2 (GoStrings.Fields (Value soa)) ""
                               else "0")])
             (calls (AppendRecords p zone records w))).
Proof.
  intros Hb. split.
  - intros Hg. rewrite <- (currentSerial_no_SOA before "0" Hb).
    apply AppendRecords_serial_sent. exact Hg.
  - intros Hg Hs.
    change (if (3 <=? length (GoStrings.Fields (Value soa)))%nat
            then nth 2 (GoStrings.Fields (Value soa)) "" else "0")
      with (serialFrom (Value soa) "0").
    rewrite <- (currentSerial_stops before after soa "0" Hb Hs).
    apply AppendRecords_serial_sent. exact Hg.
Qed.

(** X13: when the first SOA line of the zone has three or more value
    fragments and each is a non-empty word of printable ASCII bytes,
    [AppendRecords] sends the third fragment as the serial: splitting the
    value [GetRecords] joined gives the fragments back. *)
Theorem AppendRecords_serial_fragment (p : Provider) (zone : string)
    (records : list Record') (w : World)
    (before after : list parseZoneEntry) (e : parseZoneEntry)
    (parts : list string) :
  value (dial p "DNS" "parse_zone" (readParams zone) w)
    = Ok (rawEntries (before ++ e :: after)) ->
  List.Forall (fun b => RecordType b <> "SOA") before ->
  RecordType e = "SOA" ->
  DataB64 e = map Base64.EncodeToString parts ->
  forallb token parts = true ->
  3 <= length parts ->
  GoStrings.Fields (Value (recordOf zone e)) = parts
  /\ Forall (fun req => reqFunction req = "mass_edit_zone" ->
               reqParams req !! "serial" = Some [Plain (nth 2 parts "")])
            (calls (AppendRecords p zone records w)).
Proof.
  intros Hd Hb Hs Hdata Htok Hlen.
  assert (Hv : Value (recordOf zone e) = GoStrings.separated " " parts).
  { cbn [recordOf Value]. rewrite Hdata. unfold decodeParts.
    rewrite fold_left_append, map_map. cbn [app].
    rewrite GoStringsFacts.Join_separated. f_equal.
    rewrite <- (map_id parts) at 2. apply map_ext. intros a.
    rewrite Base64Facts.DecodeString_EncodeToString. reflexivity. }
  assert (Hf : GoStrings.Fields (Value (recordOf zone e)) = parts)
    by (rewrite Hv; apply FieldsFacts.Fields_separated; exact Htok).
  split; [exact Hf|].
  assert (Hg : value (GetRecords p zone w)
               = Ok (map (recordOf zone) before
                       ++ recordOf zone e :: map (recordOf zone) after)).
  { rewrite GetRecords_run. cbn [value]. rewrite Hd. cbn [decoded Unmarshal].
    rewrite map_app. reflexivity. }
  assert (Hser : currentSerial (map (recordOf zone) before
                       ++ recordOf zone e :: map (recordOf zone) after) "0"
                 = nth 2 parts "").
  { rewrite currentSerial_stops.
    - unfold serialFrom. rewrite Hf.
      apply Nat.leb_le in Hlen. rewrite Hlen. reflexivity.
    - apply List.Forall_forall. intros r Hr.
      apply in_map_iff in Hr as (b & <- & Hbin).
      rewrite List.Forall_forall in Hb. exact (Hb b Hbin).
    - exact Hs. }
  rewrite <- Hser. apply AppendRecords_serial_sent. exact Hg.
Qed.

(** X8: with an empty record list both writes still read the zone and
    send the mass edit; the add list, respectively the removal list, is
    written as JSON [null]; a non-empty add list is written as an array
    with one object per input record. *)
Theorem empty_input (p : Provider) (zone : string)
    (records existing : list Record') (w : World) :
  value (GetRecords p zone w) = Ok existing ->
  let g := GetRecords p zone w in
  let add := dial p "DNS" "mass_edit_zone"
               (addParams zone (currentSerial existing "0") []) (world g) in
  let remove := dial p "DNS" "mass_edit_zone"
                  (removeParams zone "0" []) (world g) in
  AppendRecords p zone [] w
    = mkRun (confirmed [] (value add)) (world add) (calls g ++ calls add)
  /\ DeleteRecords p zone [] w
     = mkRun (confirmed [] (value remove)) (world remove) (calls g ++ calls remove)
  /\ addParams zone (currentSerial existing "0") [] !! "add"
     = Some [Marshalled JNull]
  /\ removeParams zone "0" [] !! "remove" = Some [Marshalled JNull]
  /\ (records <> [] ->
      exists objects,
        addParams zone (currentSerial existing "0") records !! "add"
        = Some [Marshalled (JArr objects)]
        /\ length objects = length records).
Proof.
  intros Hg g add remove.
  split; [rewrite AppendRecords_run; cbv zeta; rewrite Hg; reflexivity|].
  split; [rewrite DeleteRecords_run; cbv zeta; rewrite Hg; reflexivity|].
  split; [reflexivity|]. split; [reflexivity|].
  intros Hne. destruct records as [|r l]; [destruct Hne; reflexivity|].
  eexists. split; [reflexivity|]. rewrite !length_map. reflexivity.
Qed.

(** X10: the removal list of [DeleteRecords] has one element for every
    pair of an input record and an existing record equal to it: its
    length is the sum over the input records of their numbers of matches
    (an input record given twice queues its lines twice), and the list
    for two input lists one after the other is the two removal lists one
    after the other. *)
Theorem removal_list_pairs (records more existing : list Record') :
  length (snd (removal records existing))
  = list_sum (map (fun r => length (List.filter (sameRecord r) existing)) records)
  /\ length (snd (removal records existing)) <= length records * length existing
  /\ snd (removal (records ++ more) existing)
     = snd (removal records existing) ++ snd (removal more existing).
Proof.
  rewrite !removal_spec. cbn [snd]. unfold queued.
  assert (Hlen : length (flat_map (matching existing) records)
                 = list_sum (map (fun r => length (List.filter (sameRecord r) existing))
                                 records)).
  { induction records as [|r l IH]; [reflexivity|].
    cbn [flat_map map list_sum]. rewrite length_app, IH.
    unfold matching at 1. rewrite length_map. reflexivity. }
  split; [exact Hlen|]. split.
  - rewrite Hlen. clear Hlen. induction records as [|r l IH]; [cbn; lia|].
    cbn [map list_sum length].
    change (S (length l) * length existing)
      with (length existing + length l * length existing).
    pose proof (List.filter_length_le (sameRecord r) existing).
    match goal with
    | |- list_sum (?x :: ?t) <= _ => change (list_sum (x :: t)) with (x + list_sum t)
    end.
    lia.
  - apply flat_map_app.
Qed.

End WriterMore.

(* ===================================================================== *)
(** ** The operations composed, against the echoing remote *)
(* ===================================================================== *)

Module Composed.
Import Mock Spec Further.

Lemma GetRecords_serving (p : Provider) (zone : string)
    (lines : list parseZoneEntry) :
  GetRecords p zone (serving lines) =
  mkRun (Ok (map (recordOf zone) (numbered lines))) (serving lines)
        [requestFor p "DNS" "parse_zone" (readParams zone)].
Proof.
  rewrite GetRecords_run. cbv zeta.
  rewrite (dial_response p "DNS" "parse_zone" (readParams zone)
             (serving lines) (serving lines)
             (bodyEnvelope 1 (rawEntries (numbered lines))))
    by reflexivity.
  reflexivity.
Qed.

Lemma edit_serving (p : Provider) (params : Values)
    (lines : list parseZoneEntry) :
  dial p "DNS" "mass_edit_zone" params (serving lines) =
  mkRun (Ok noData) (serving (edit params lines))
        [requestFor p "DNS" "mass_edit_zone" params].
Proof.
  rewrite (dial_response p "DNS" "mass_edit_zone" params
             (serving lines) (serving (edit params lines))
             (bodyEnvelope 1 noData))
    by reflexivity.
  reflexivity.
Qed.

Lemma LineIndex_numbered (lines : list parseZoneEntry) (k : nat) :
  map LineIndex
      (imap (fun i e => mkEntry (Z.of_nat (k + i)) (RecordType e) (eTTL e)
                                (DNameB64 e) (DataB64 e)) lines)
  = map Z.of_nat (seq k (length lines)).
Proof.
  revert k. induction lines as [|e l IH]; intros k; [reflexivity|].
  cbn [imap map length seq LineIndex]. rewrite Nat.add_0_r. f_equal.
  rewrite <- (IH (S k)). f_equal. apply imap_ext. intros i x _.
  cbn. rewrite Nat.add_succ_r. reflexivity.
Qed.

Lemma NoDup_LineIndex_numbered (lines : list parseZoneEntry) :
  List.NoDup (map LineIndex (numbered lines)).
Proof.
  pose proof (LineIndex_numbered lines 0) as H. cbn [Nat.add] in H.
  unfold numbered. rewrite H.
  apply NoDup_map_inj; [|apply List.seq_NoDup].
  intros a b _ _. apply Nat2Z.inj.
Qed.

Lemma existsb_In {A : Type} (f : A -> bool) (l : list A) :
  existsb f l = true <-> exists x, In x l /\ f x = true.
Proof. apply existsb_exists. Qed.

(** The remote drops exactly the lines that some input record equals. *)
Lemma keep_queued (zone : string) (records : list Record')
    (lines : list parseZoneEntry) (e : parseZoneEntry) :
  In e (numbered lines) ->
  keep (queued records (map (recordOf zone) (numbered lines))) e
  = unmatched records (recordOf zone e).
Proof.
  intros He. unfold keep, unmatched. f_equal.
  apply eq_true_iff_eq. rewrite bool_decide_eq_true, existsb_In.
  rewrite list_elem_of_In, queued_In. split.
  - intros (r & ex & Hr & Hex & Hsame & Hli).
    apply in_map_iff in Hex as (e' & <- & He').
    rewrite lineIndexOf_recordOf in Hli.
    apply StrconvFacts.Itoa_inj in Hli.
    assert (e = e') as <-
      by (apply (NoDup_map_In_inj LineIndex (numbered lines));
          [apply NoDup_LineIndex_numbered | assumption..]).
    eauto.
  - intros (r & Hr & Hsame). exists r, (recordOf zone e).
    repeat split; [exact Hr | apply in_map; exact He | exact Hsame].
Qed.

Lemma filter_map_swap {A B : Type} (f : A -> B) (g : B -> bool) (l : list A) :
  List.filter g (map f l) = map f (List.filter (fun x => g (f x)) l).
Proof.
  induction l as [|x l IH]; [reflexivity|].
  cbn [map List.filter]. destruct (g (f x)); cbn [map]; rewrite IH; reflexivity.
Qed.

(** [DeleteRecords], served. *)
Lemma DeleteRecords_serving (p : Provider) (zone : string)
    (records : list Record') (lines : list parseZoneEntry) :
  let existing := map (recordOf zone) (numbered lines) in
  DeleteRecords p zone records (serving lines) =
  mkRun (Ok records)
        (serving (List.filter (fun e => unmatched records (recordOf zone e))
                              (numbered lines)))
        [requestFor p "DNS" "parse_zone" (readParams zone);
         requestFor p "DNS" "mass_edit_zone"
           (removeParams zone (fst (removal records existing))
                         (snd (removal records existing)))].
Proof.
  intros existing. rewrite DeleteRecords_run. cbv zeta.
  rewrite GetRecords_serving. cbn [value world calls]. fold existing.
  rewrite edit_serving. cbn [value world calls confirmed app].
  rewrite MockFacts.edit_removeParams, removal_spec. cbn [snd fst].
  subst existing. rewrite MockFacts.queued_written.
  f_equal. f_equal. apply filter_ext_in. intros e He.
  apply keep_queued. exact He.
Qed.

(** [AppendRecords], served. *)
Lemma AppendRecords_serving (p : Provider) (zone : string)
    (records : list Record') (lines : list parseZoneEntry) :
  let existing := map (recordOf zone) (numbered lines) in
  AppendRecords p zone records (serving lines) =
  mkRun (Ok records)
        (serving (numbered lines ++ map (storedLine zone) records))
        [requestFor p "DNS" "parse_zone" (readParams zone);
         requestFor p "DNS" "mass_edit_zone"
           (addParams zone (currentSerial existing "0") records)].
Proof.
  intros existing. rewrite AppendRecords_run. cbv zeta.
  rewrite GetRecords_serving. cbn [value world calls]. fold existing.
  rewrite edit_serving. cbn [value world calls confirmed app].
  rewrite MockFacts.edit_addParams. reflexivity.
Qed.

Lemma fields_zoneRecords (zone : string) (lines : list parseZoneEntry) :
  map fields (zoneRecords zone (serving lines))
  = map (fun e => fields (recordOf zone e)) lines.
Proof.
  unfold zoneRecords, serving. cbn [stored].
  rewrite map_map. apply MockFacts.fields_numbered.
Qed.

Lemma fields_echo (zone : string) (records : list Record') :
  UTF8.ValidString zone = true ->
  List.Forall (fun r => (0 <= TTL r < 2 ^ 32)%Z) records ->
  List.Forall wellEncoded records ->
  map (fun e => fields (recordOf zone e)) (map (storedLine zone) records)
  = map fields records.
Proof.
  intros Hz Httl Henc. rewrite map_map. apply map_ext_in. intros r Hr.
  rewrite List.Forall_forall in Httl, Henc.
  apply MockFacts.fields_storedLine; [exact Hz | apply Httl | apply Henc];
    exact Hr.
Qed.

Lemma fields_unmatched_numbered (zone : string) (records : list Record')
    (lines : list parseZoneEntry) :
  map (fun e => fields (recordOf zone e))
      (List.filter (fun e => unmatched records (recordOf zone e)) (numbered lines))
  = map fields (List.filter (unmatched records) (zoneRecords zone (serving lines))).
Proof.
  unfold zoneRecords, serving. cbn [stored].
  rewrite filter_map_swap, map_map. reflexivity.
Qed.

Lemma unmatched_fields (records : list Record') (a b : Record') :
  fields a = fields b -> unmatched records a = unmatched records b.
Proof.
  unfold fields, unmatched. intros [= Ht Hn Hv _]. f_equal.
  induction records as [|r l IH]; [reflexivity|].
  cbn [existsb]. rewrite IH. unfold sameRecord. rewrite Ht, Hn, Hv. reflexivity.
Qed.

Lemma filter_unmatched_fields (records l1 l2 : list Record') :
  map fields l1 = map fields l2 ->
  map fields (List.filter (unmatched records) l1)
  = map fields (List.filter (unmatched records) l2).
Proof.
  revert l2. induction l1 as [|a l1 IH]; intros [|b l2] H; try discriminate;
    [reflexivity|].
  cbn [map] in H.
  pose proof (f_equal (List.hd (fields a)) H) as Hab.
  pose proof (f_equal (@List.tl _) H) as Hl.
  cbn [List.hd List.tl] in Hab, Hl.
  cbn [List.filter]. rewrite (unmatched_fields records a b Hab).
  destruct (unmatched records b); cbn [map]; [rewrite Hab; f_equal|];
    apply IH; exact Hl.
Qed.

Lemma sameRecord_refl (r : Record') : sameRecord r r = true.
Proof. apply sameRecord_iff. auto. Qed.

Lemma filter_unmatched_self (records : list Record') :
  List.filter (unmatched records) records = [].
Proof.
  enough (H : forall l, (forall r, In r l -> In r records) ->
                        List.filter (unmatched records) l = [])
    by (apply H; auto).
  induction l as [|r l IH]; intros Hl; [reflexivity|].
  cbn [List.filter].
  assert (Hr : unmatched records r = false).
  { unfold unmatched. apply negb_false_iff, existsb_exists.
    exists r. split; [apply Hl; left; reflexivity | apply sameRecord_refl]. }
  rewrite Hr. apply IH. intros x Hx. apply Hl. right. exact Hx.
Qed.

Lemma filter_idem {A : Type} (f : A -> bool) (l : list A) :
  List.filter f (List.filter f l) = List.filter f l.
Proof.
  induction l as [|x l IH]; [reflexivity|].
  cbn [List.filter]. destruct (f x) eqn:E; [|exact IH].
  cbn [List.filter]. rewrite E, IH. reflexivity.
Qed.

(** [SetRecords], served. *)
Lemma SetRecords_serving (p : Provider) (zone : string)
    (records : list Record') (lines : list parseZoneEntry) :
  let s := SetRecords p zone records (serving lines) in
  value s = Ok records
  /\ length (calls s) = 4
  /\ exists after, world s = serving after
       /\ (UTF8.ValidString zone = true ->
           List.Forall (fun r => (0 <= TTL r < 2 ^ 32)%Z) records ->
           List.Forall wellEncoded records ->
           map (fun e => fields (recordOf zone e)) after
           = map fields (List.filter (unmatched records)
                           (zoneRecords zone (serving lines)))
             ++ map fields records).
Proof.
  intros s. subst s. rewrite SetRecords_run. cbv zeta.
  rewrite DeleteRecords_serving. cbn [value world calls].
  rewrite AppendRecords_serving. cbn [value world calls].
  split; [reflexivity|]. split; [reflexivity|].
  eexists. split; [reflexivity|].
  intros Hz Httl Henc. rewrite map_app, MockFacts.fields_numbered.
  rewrite fields_unmatched_numbered, fields_echo by assumption. reflexivity.
Qed.

End Composed.

Module EndToEnd.
Import Mock Spec Further.

Lemma read_serving (p : Provider) (zone : string) (lines : list parseZoneEntry) :
  value (GetRecords p zone (serving lines)) = Ok (zoneRecords zone (serving lines)).
Proof. rewrite Composed.GetRecords_serving. reflexivity. Qed.

Lemma delete_view (p : Provider) (zone : string) (records : list Record')
    (lines : list parseZoneEntry) :
  exists after,
    world (DeleteRecords p zone records (serving lines)) = serving after
    /\ map fields (zoneRecords zone (serving after))
       = map fields (List.filter (unmatched records)
                       (zoneRecords zone (serving lines))).
Proof.
  rewrite Composed.DeleteRecords_serving. cbn [world].
  eexists. split; [reflexivity|].
  rewrite Composed.fields_zoneRecords. apply Composed.fields_unmatched_numbered.
Qed.

Lemma append_view (p : Provider) (zone : string) (records : list Record')
    (lines : list parseZoneEntry) :
  UTF8.ValidString zone = true ->
  List.Forall (fun r => (0 <= TTL r < 2 ^ 32)%Z) records ->
  List.Forall wellEncoded records ->
  exists after,
    world (AppendRecords p zone records (serving lines)) = serving after
    /\ map fields (zoneRecords zone (serving after))
       = map fields (zoneRecords zone (serving lines)) ++ map fields records.
Proof.
  intros Hz Httl Henc. rewrite Composed.AppendRecords_serving. cbn [world].
  eexists. split; [reflexivity|].
  rewrite !Composed.fields_zoneRecords, map_app, MockFacts.fields_numbered.
  rewrite Composed.fields_echo by assumption. reflexivity.
Qed.

Lemma set_view (p : Provider) (zone : string) (records : list Record')
    (lines : list parseZoneEntry) :
  UTF8.ValidString zone = true ->
  List.Forall (fun r => (0 <= TTL r < 2 ^ 32)%Z) records ->
  List.Forall wellEncoded records ->
  exists after,
    world (SetRecords p zone records (serving lines)) = serving after
    /\ map fields (zoneRecords zone (serving after))
       = map fields (List.filter (unmatched records)
                       (zoneRecords zone (serving lines)))
         ++ map fields records.
Proof.
  intros Hz Httl Henc.
  destruct (Composed.SetRecords_serving p zone records lines)
    as (_ & _ & after & Hw & Hf).
  exists after. split; [exact Hw|].
  rewrite Composed.fields_zoneRecords. apply Hf; assumption.
Qed.

Lemma values_numbered (zone : string) (lines : list parseZoneEntry) :
  map (fun e => Value (recordOf zone e)) (numbered lines)
  = map (fun e => Value (recordOf zone e)) lines.
Proof. apply MockFacts.map_imap_stable. reflexivity. Qed.

(** What is left of [old ++ records] once the records equal to an input
    record are taken out. *)
Lemma unmatched_after_append (records old l : list Record') :
  map fields l = map fields old ++ map fields records ->
  map fields (List.filter (unmatched records) l)
  = map fields (List.filter (unmatched records) old).
Proof.
  intros H. rewrite <- map_app in H.
  rewrite (Composed.filter_unmatched_fields records _ _ H).
  rewrite List.filter_app, Composed.filter_unmatched_self, app_nil_r.
  reflexivity.
Qed.

(** X11: against the echoing remote, [DeleteRecords] succeeds and the
    zone read afterwards holds, in order, exactly the records of before
    that no input record equals in type, name and value. *)
Theorem delete_then_read (p : Provider) (zone : string)
    (records : list Record') (lines : list parseZoneEntry) :
  let d := DeleteRecords p zone records (serving lines) in
  value (GetRecords p zone (serving lines)) = Ok (zoneRecords zone (serving lines))
  /\ value d = Ok records
  /\ exists back,
       value (GetRecords p zone (world d)) = Ok back
       /\ map fields back
          = map fields (List.filter (unmatched records)
                          (zoneRecords zone (serving lines))).
Proof.
  intros d. split; [apply read_serving|].
  split; [subst d; rewrite Composed.DeleteRecords_serving; reflexivity|].
  destruct (delete_view p zone records lines) as (after & Hw & Hf).
  subst d. rewrite Hw. eexists. split; [apply read_serving | exact Hf].
Qed.

(** X12: against the echoing remote, [SetRecords] of records whose ttl is
    a [uint32] and whose type, name and value are valid UTF-8, in a zone
    whose name is, succeeds with four requests, and the zone read
    afterwards holds the records of before that no input record equals,
    followed by the input records, equal in type, name, value and ttl. *)
Theorem set_then_read (p : Provider) (zone : string)
    (records : list Record') (lines : list parseZoneEntry) :
  UTF8.ValidString zone = true ->
  List.Forall (fun r => (0 <= TTL r < 2 ^ 32)%Z) records ->
  List.Forall wellEncoded records ->
  let s := SetRecords p zone records (serving lines) in
  value s = Ok records
  /\ length (calls s) = 4
  /\ exists back,
       value (GetRecords p zone (world s)) = Ok back
       /\ map fields back
          = map fields (List.filter (unmatched records)
                          (zoneRecords zone (serving lines)))
            ++ map fields records.
Proof.
  intros Hz Httl Henc s.
  destruct (Composed.SetRecords_serving p zone records lines) as (Hv & Hc & _).
  split; [exact Hv|]. split; [exact Hc|].
  destruct (set_view p zone records lines Hz Httl Henc) as (after & Hw & Hf).
  subst s. rewrite Hw. eexists. split; [apply read_serving | exact Hf].
Qed.

(** X14: against the echoing remote, [SetRecords] done twice with the
    same records (ttl a [uint32]; type, name, value and zone valid UTF-8)
    leaves the zone as [SetRecords] done once does, up to line indexes:
    the second run deletes what the first one added and adds it again. *)
Theorem set_twice (p : Provider) (zone : string)
    (records : list Record') (lines : list parseZoneEntry) :
  UTF8.ValidString zone = true ->
  List.Forall (fun r => (0 <= TTL r < 2 ^ 32)%Z) records ->
  List.Forall wellEncoded records ->
  let once := SetRecords p zone records (serving lines) in
  let twice := SetRecords p zone records (world once) in
  value twice = Ok records
  /\ map fields (zoneRecords zone (world twice))
     = map fields (zoneRecords zone (world once)).
Proof.
  intros Hz Httl Henc once twice.
  destruct (set_view p zone records lines Hz Httl Henc) as (after & Hw & Hf).
  subst twice once. rewrite Hw.
  destruct (Composed.SetRecords_serving p zone records after) as (Hv & _ & _).
  split; [exact Hv|].
  destruct (set_view p zone records after Hz Httl Henc) as (after2 & Hw2 & Hf2).
  rewrite Hw2, Hf2, Hf. f_equal.
  rewrite (unmatched_after_append records
             (List.filter (unmatched records) (zoneRecords zone (serving lines)))
             _ Hf).
  rewrite Composed.filter_idem. reflexivity.
Qed.

(** X15: against the echoing remote, [DeleteRecords] after
    [AppendRecords] of the same records (ttl a [uint32]; type, name,
    value and zone valid UTF-8) takes out everything that was added, and
    with it the records of before that equal an input record: the zone
    holds the records of before that no input record equals. *)
Theorem append_then_delete (p : Provider) (zone : string)
    (records : list Record') (lines : list parseZoneEntry) :
  UTF8.ValidString zone = true ->
  List.Forall (fun r => (0 <= TTL r < 2 ^ 32)%Z) records ->
  List.Forall wellEncoded records ->
  let a := AppendRecords p zone records (serving lines) in
  let d := DeleteRecords p zone records (world a) in
  value a = Ok records
  /\ value d = Ok records
  /\ map fields (zoneRecords zone (world d))
     = map fields (List.filter (unmatched records)
                     (zoneRecords zone (serving lines))).
Proof.
  intros Hz Httl Henc a d.
  destruct (append_view p zone records lines Hz Httl Henc) as (after & Hw & Hf).
  split; [subst a; rewrite Composed.AppendRecords_serving; reflexivity|].
  subst d a. rewrite Hw.
  split; [rewrite Composed.DeleteRecords_serving; reflexivity|].
  destruct (delete_view p zone records after) as (after2 & Hw2 & Hf2).
  rewrite Hw2, Hf2. apply unmatched_after_append. exact Hf.
Qed.

(** X17: against the echoing remote, [AppendRecords] of records whose ttl
    is a [uint32] and whose type, name and value are valid UTF-8, in a
    zone whose name is, succeeds, and the zone read afterwards holds the
    records of before followed by the input records, equal in type, name,
    value and ttl.  A string that is not valid UTF-8 is not read back as
    it was: [json.Marshal] writes U+FFFD for its stray bytes. *)
Theorem append_then_read (p : Provider) (zone : string)
    (records : list Record') (lines : list parseZoneEntry) :
  UTF8.ValidString zone = true ->
  List.Forall (fun r => (0 <= TTL r < 2 ^ 32)%Z) records ->
  List.Forall wellEncoded records ->
  let a := AppendRecords p zone records (serving lines) in
  (value a = Ok records
   /\ exists back,
        value (GetRecords p zone (world a)) = Ok back
        /\ map fields back
           = map fields (zoneRecords zone (serving lines)) ++ map fields records)
  /\ exists back,
       value (GetRecords p zone
                (world (AppendRecords p zone [Scenario.stray] (serving lines))))
         = Ok back
       /\ map Value back
          = map Value (zoneRecords zone (serving lines))
            ++ [ofBytes (UTF8.replacement ++ UTF8.replacement)].
Proof.
  intros Hz Httl Henc a. split.
  - destruct (append_view p zone records lines Hz Httl Henc) as (after & Hw & Hf).
    split; [subst a; rewrite Composed.AppendRecords_serving; reflexivity|].
    subst a. rewrite Hw. eexists. split; [apply read_serving | exact Hf].
  - rewrite Composed.AppendRecords_serving. cbn [world].
    eexists. split; [apply read_serving|].
    unfold zoneRecords, serving. cbn [stored].
    rewrite !map_map, !values_numbered, map_app, values_numbered.
    apply (f_equal (app (map (fun e => Value (recordOf zone e)) lines))).
    reflexivity.
Qed.

End EndToEnd.

(* ===================================================================== *)
(** ** The serial that is sent *)
(* ===================================================================== *)

Module SerialFacts.
Import GoStrings Spec Further.

Lemma spaceWidth_0 (c : ascii) (t : list ascii) :
  spaceWidth (c :: t) = 0 -> asciiSpace c = false.
Proof.
  unfold spaceWidth, asciiSpace.
  destruct ((9 <=? N_of_ascii c) && (N_of_ascii c <=? 13) || (N_of_ascii c =? 32))%N;
    [discriminate | reflexivity].
Qed.

Lemma flush_words (cur : list ascii) (f : string) :
  List.Forall (fun c => asciiSpace c = false) cur ->
  In f (flush cur) -> word f.
Proof.
  intros Hcur. destruct cur as [|c cur]; [intros []|].
  intros [<-|[]]. split; [discriminate|].
  rewrite list_ascii_of_string_of_list_ascii. exact Hcur.
Qed.

(** The fields of [Fields] are non-empty and free of ASCII white space. *)
Lemma fieldsFrom_words (s : list ascii) :
  forall (skip : nat) (cur : list ascii) (f : string),
    List.Forall (fun c => asciiSpace c = false) cur ->
    In f (fieldsFrom s skip cur) -> word f.
Proof.
  induction s as [|c t IH]; intros skip cur f Hcur Hf.
  - exact (flush_words cur f Hcur Hf).
  - cbn [fieldsFrom] in Hf. destruct skip as [|k].
    + destruct (spaceWidth (c :: t)) as [|k] eqn:Hw.
      * apply (IH 0 (cur ++ [c]) f); [|exact Hf].
        apply List.Forall_app. split; [exact Hcur|].
        constructor; [exact (spaceWidth_0 c t Hw) | constructor].
      * apply in_app_or in Hf as [Hf|Hf].
        -- exact (flush_words cur f Hcur Hf).
        -- apply (IH k [] f); [constructor | exact Hf].
    + exact (IH k cur f Hcur Hf).
Qed.

Lemma word_0 : word "0".
Proof. split; [discriminate|]. repeat constructor. Qed.

Lemma serialFrom_word (v serial : string) :
  word serial -> word (serialFrom v serial).
Proof.
  intros Hs. unfold serialFrom.
  destruct (Nat.leb_spec 3 (length (Fields v))) as [Hlen|_]; [|exact Hs].
  apply (fieldsFrom_words (bytesOf v) 0 []); [constructor|].
  apply nth_In. exact Hlen.
Qed.

Lemma currentSerial_word (existing : list Record') (serial : string) :
  word serial -> word (currentSerial existing serial).
Proof.
  intros Hs. rewrite currentSerial_firstSOA.
  destruct (firstSOA existing); [apply serialFrom_word|]; exact Hs.
Qed.

Lemma removal_serial_word (records existing : list Record') :
  word (fst (removal records existing)).
Proof.
  rewrite removal_spec. cbn [fst].
  destruct (last_default_or_In (matchedSerials records existing) "0") as [H|H].
  - rewrite H. exact word_0.
  - apply matchedSerials_In in H as (r & ex & _ & _ & _ & _ & Hlen & ->).
    apply (fieldsFrom_words (bytesOf (Value ex)) 0 []); [constructor|].
    apply nth_In. exact Hlen.
Qed.

End SerialFacts.

Section SerialSent.

Context {World : Type} `{!Transport World}.

Import Further.

(** X16: the serial a write sends with [mass_edit_zone] is never empty
    and holds no ASCII white space: it is "0" or a whole field of an SOA
    value. *)
Theorem serial_is_a_word (p : Provider) (zone : string)
    (records existing : list Record') (w : World) :
  value (GetRecords p zone w) = Ok existing ->
  Forall (fun req => reqFunction req = "mass_edit_zone" ->
            exists serial,
              reqParams req !! "serial" = Some [Plain serial] /\ word serial)
         (calls (AppendRecords p zone records w))
  /\ Forall (fun req => reqFunction req = "mass_edit_zone" ->
               exists serial,
                 reqParams req !! "serial" = Some [Plain serial] /\ word serial)
            (calls (DeleteRecords p zone records w)).
Proof.
  intros Hg. split.
  - rewrite (AppendRecords_calls _ _ _ _ _ Hg).
    apply Forall_forall. intros req Hreq Hfun.
    apply elem_of_app in Hreq as [Hreq|Hreq].
    + apply GetRecords_sent in Hreq. rewrite Hreq in Hfun. discriminate.
    + apply dial_sent in Hreq. subst req.
      exists (currentSerial existing "0"). split; [reflexivity|].
      apply SerialFacts.currentSerial_word, SerialFacts.word_0.
  - rewrite (DeleteRecords_calls _ _ _ _ _ Hg).
    apply Forall_forall. intros req Hreq Hfun.
    apply elem_of_app in Hreq as [Hreq|Hreq].
    + apply GetRecords_sent in Hreq. rewrite Hreq in Hfun. discriminate.
    + apply dial_sent in Hreq. subst req.
      exists (fst (removal records existing)). split; [reflexivity|].
      apply SerialFacts.removal_serial_word.
Qed.

End SerialSent.

(* ===================================================================== *)
(** ** The further theorems at the scenarios *)
(* ===================================================================== *)

Module MoreWitnesses.
Import Scenario Spec Further.

Lemma failed_read_aborts_witness :
  value (GetRecords p zone rejecting) = Err APICallFailed
  /\ value (SetRecords p zone [blog] rejecting) = Err APICallFailed.
Proof.
  split; [vm_compute; reflexivity|].
  destruct (failed_read_aborts p zone [blog] rejecting APICallFailed)
    as (_ & _ & Hs & _); [vm_compute; reflexivity|].
  rewrite Hs. reflexivity.
Defined.

Lemma GetRecords_records_witness :
  value (dial p "DNS" "parse_zone" (readParams zone) w0)
    = Ok (rawEntries (Mock.numbered lines))
  /\ exists records,
       value (GetRecords p zone w0) = Ok records /\ length records = 2.
Proof.
  split; [reflexivity|].
  destruct (GetRecords_records p zone w0 (Mock.numbered lines))
    as (records & Hv & Hl & _); [reflexivity|].
  exists records. split; [exact Hv | exact Hl].
Defined.

Lemma GetRecords_clear_text_witness :
  exists records r,
    value (GetRecords p zone w0) = Ok records
    /\ records !! 1 = Some r
    /\ Name r = GoStrings.TrimSuffix "example.com." ("." +:+ zone)
    /\ Value r = GoStrings.separated " "
                   ["ns1"; "admin"; "42"; "3600"; "1800"; "1209600"; "86400"].
Proof.
  apply (GetRecords_clear_text p zone w0 (Mock.numbered lines) 1
           (mkEntry 1 "SOA" 86400 (Base64.EncodeToString "example.com.")
              (map Base64.EncodeToString
                   ["ns1"; "admin"; "42"; "3600"; "1800"; "1209600"; "86400"])));
    reflexivity.
Defined.

Lemma empty_input_witness :
  value (GetRecords p zone w0) = Ok existing
  /\ length (calls (AppendRecords p zone [] w0)) = 2.
Proof.
  split; [vm_compute; reflexivity|].
  destruct (empty_input p zone [blog] existing w0) as (Ha & _);
    [vm_compute; reflexivity|].
  rewrite Ha. vm_compute. reflexivity.
Defined.

Lemma AppendRecords_default_serial_witness :
  List.Forall (fun r => Type' r <> "SOA")
              [mkRecord "A" "www" "1.2.3.4" 300 {[ "line_index" := "0" ]}]
  /\ Forall (fun req => reqFunction req = "mass_edit_zone" ->
               reqParams req !! "serial" = Some [Plain "0"])
            (calls (AppendRecords p zone [blog]
                      (serving [Mock.line "A" "www.example.com." 300 ["1.2.3.4"]]))).
Proof.
  assert (Hb : List.Forall (fun r => Type' r <> "SOA")
                 [mkRecord "A" "www" "1.2.3.4" 300 {[ "line_index" := "0" ]}])
    by (repeat constructor; discriminate).
  split; [exact Hb|].
  refine (proj1 (AppendRecords_default_serial p zone [blog] _ []
                   (serving [Mock.line "A" "www.example.com." 300 ["1.2.3.4"]])
                   www Hb) _).
  vm_compute. reflexivity.
Defined.

Lemma AppendRecords_serial_fragment_witness :
  forallb token ["ns1"; "admin"; "42"; "3600"; "1800"; "1209600"; "86400"] = true
  /\ GoStrings.Fields soaValue
     = ["ns1"; "admin"; "42"; "3600"; "1800"; "1209600"; "86400"].
Proof.
  split; [vm_compute; reflexivity|].
  refine (proj1 (AppendRecords_serial_fragment p zone [blog] w0
            [mkEntry 0 "A" 300 (Base64.EncodeToString "www.example.com.")
                     [Base64.EncodeToString "1.2.3.4"]]
            []
            (mkEntry 1 "SOA" 86400 (Base64.EncodeToString "example.com.")
               (map Base64.EncodeToString
                  ["ns1"; "admin"; "42"; "3600"; "1800"; "1209600"; "86400"]))
            ["ns1"; "admin"; "42"; "3600"; "1800"; "1209600"; "86400"]
            _ _ _ _ _ _));
    [reflexivity
    | repeat constructor; discriminate
    | reflexivity
    | reflexivity
    | vm_compute; reflexivity
    | cbn; lia].
Defined.

Lemma serial_is_a_word_witness :
  value (GetRecords p zone w0) = Ok existing
  /\ Forall (fun req => reqFunction req = "mass_edit_zone" ->
               exists serial,
                 reqParams req !! "serial" = Some [Plain serial] /\ word serial)
            (calls (DeleteRecords p zone [www] w0)).
Proof.
  split; [vm_compute; reflexivity|].
  refine (proj2 (serial_is_a_word p zone [www] existing w0 _)).
  vm_compute. reflexivity.
Defined.

Lemma blog_ttl : List.Forall (fun r => (0 <= TTL r < 2 ^ 32)%Z) [blog].
Proof. repeat constructor; cbn; lia. Defined.

Lemma blog_enc : List.Forall wellEncoded [blog].
Proof. repeat constructor. Defined.

Lemma zone_enc : UTF8.ValidString zone = true.
Proof. reflexivity. Defined.

Lemma set_then_read_witness :
  UTF8.ValidString zone = true
  /\ List.Forall (fun r => (0 <= TTL r < 2 ^ 32)%Z) [blog]
  /\ List.Forall wellEncoded [blog]
  /\ value (SetRecords p zone [blog] (serving lines)) = Ok [blog].
Proof.
  split; [exact zone_enc|]. split; [exact blog_ttl|]. split; [exact blog_enc|].
  exact (proj1 (EndToEnd.set_then_read p zone [blog] lines
                  zone_enc blog_ttl blog_enc)).
Defined.

Lemma set_twice_witness :
  UTF8.ValidString zone = true
  /\ List.Forall (fun r => (0 <= TTL r < 2 ^ 32)%Z) [blog]
  /\ List.Forall wellEncoded [blog]
  /\ map fields (zoneRecords zone
        (world (SetRecords p zone [blog]
                  (world (SetRecords p zone [blog] (serving lines))))))
     = map fields (zoneRecords zone
                     (world (SetRecords p zone [blog] (serving lines)))).
Proof.
  split; [exact zone_enc|]. split; [exact blog_ttl|]. split; [exact blog_enc|].
  exact (proj2 (EndToEnd.set_twice p zone [blog] lines
                  zone_enc blog_ttl blog_enc)).
Defined.

Lemma append_then_delete_witness :
  UTF8.ValidString zone = true
  /\ List.Forall (fun r => (0 <= TTL r < 2 ^ 32)%Z) [blog]
  /\ List.Forall wellEncoded [blog]
  /\ value (AppendRecords p zone [blog] (serving lines)) = Ok [blog].
Proof.
  split; [exact zone_enc|]. split; [exact blog_ttl|]. split; [exact blog_enc|].
  exact (proj1 (EndToEnd.append_then_delete p zone [blog] lines
                  zone_enc blog_ttl blog_enc)).
Defined.

Lemma append_then_read_witness :
  UTF8.ValidString zone = true
  /\ List.Forall (fun r => (0 <= TTL r < 2 ^ 32)%Z) [blog]
  /\ List.Forall wellEncoded [blog]
  /\ value (AppendRecords p zone [blog] (serving lines)) = Ok [blog].
Proof.
  split; [exact zone_enc|]. split; [exact blog_ttl|]. split; [exact blog_enc|].
  exact (proj1 (proj1 (EndToEnd.append_then_read p zone [blog] lines
                         zone_enc blog_ttl blog_enc))).
Defined.

End MoreWitnesses.
